(** * paat: physical-activity levels from raw acceleration

    A shallow embedding of [paat/estimates.py].  The single function of that
    file, [calculate_pa_levels], builds a pandas [DataFrame] from the two
    input arrays, optionally resamples it into epochs, compares the epoch
    means of the ENMO signal against two cutpoints and projects the epoch
    labels back onto the samples with [pandas.merge_asof].

    Numbers are IEEE binary64 values (Rocq's primitive floats, the [float64]
    of numpy), timestamps are [datetime64[ns]] values, i.e. integers counting
    nanoseconds since the epoch.  Frames are mutable Python objects: they
    live in a store and the variables [data] and [tmp] of the source hold
    locations of that store. *)

From Stdlib Require Import ZArith List String Ascii Bool Floats Uint63 Lia.
Import ListNotations.

Set Warnings "-inexact-float".

Local Open Scope string_scope.
Local Open Scope list_scope.
Local Open Scope Z_scope.

(** ** Exceptions and results *)

Inductive exn : Type :=
| ValueError
| KeyError
| TypeError.

Inductive result (A : Type) : Type :=
| Ok (a : A)
| Raise (e : exn).

Arguments Ok {A} a.
Arguments Raise {A} e.

Definition rbind {A B : Type} (r : result A) (k : A -> result B) : result B :=
  match r with
  | Ok a => k a
  | Raise e => Raise e
  end.

Fixpoint rmap {A B : Type} (f : A -> result B) (l : list A) : result (list B) :=
  match l with
  | [] => Ok []
  | a :: l' => rbind (f a) (fun b => rbind (rmap f l') (fun bs => Ok (b :: bs)))
  end.

(** ** Cells, tables and frames *)

(** One entry of a column.  [NA] is the fill value pandas puts where a join
    found no partner (NaN, which turns a boolean column into an object
    column). *)
Inductive cell : Type :=
| Flt (x : float)
| Tm (t : Z)
| Bl (b : bool)
| NA.

(** A table is the data of a frame: named columns, in column order. *)
Definition table : Type := list (string * list cell).

(** A column of a frame either owns its cells or is a view of one axis of the
    caller's acceleration array: [pd.DataFrame(acceleration, columns=...)]
    requests no copy, so the frame may share the array's memory. *)
Inductive column : Type :=
| Own (cells : list cell)
| ViewAcc (axis : nat).

Definition DataFrame : Type := list (string * column).

Definition accel : Type := (float * float * float)%type.

Definition axis_of (k : nat) (a : accel) : float :=
  match a, k with
  | (y, _, _), O => y
  | (_, x, _), S O => x
  | (_, _, z), _ => z
  end.

Definition set_axis (k : nat) (v : float) (a : accel) : accel :=
  match a, k with
  | (_, x, z), O => (v, x, z)
  | (y, _, z), S O => (y, v, z)
  | (y, x, _), _ => (y, x, v)
  end.

Fixpoint lookup {A : Type} (name : string) (cols : list (string * A)) : option A :=
  match cols with
  | [] => None
  | (n, c) :: rest => if String.eqb n name then Some c else lookup name rest
  end.

Definition names {A : Type} (cols : list (string * A)) : list string :=
  map fst cols.

Fixpoint mem (name : string) (l : list string) : bool :=
  match l with
  | [] => false
  | n :: rest => String.eqb n name || mem name rest
  end.

Fixpoint replace {A : Type} (name : string) (c : A) (cols : list (string * A))
  : list (string * A) :=
  match cols with
  | [] => []
  | (n, c0) :: rest =>
      if String.eqb n name then (n, c) :: rest else (n, c0) :: replace name c rest
  end.

Definition cell_float (c : cell) : result float :=
  match c with
  | Flt x => Ok x
  | NA => Ok nan
  | _ => Raise TypeError
  end.

Definition cell_time (c : cell) : result Z :=
  match c with
  | Tm t => Ok t
  | _ => Raise TypeError
  end.

(** ** The vector magnitude *)

(** Modelled from the spec: [preprocessing.calculate_vector_magnitude] is not
    among the sources.  Section 4.1 gives its contract: the Euclidean norm of
    each triple, optionally minus one, optionally clamped to zero when
    negative. *)
Definition vector_magnitude (minus_one round_negative_to_zero : bool) (a : accel)
  : float :=
  let '(y, x, z) := a in
  let norm := PrimFloat.sqrt (y * y + x * x + z * z)%float in
  let v := if minus_one then (norm - 1)%float else norm in
  if round_negative_to_zero && (v <? 0)%float then 0%float else v.

Definition calculate_vector_magnitude (acceleration : list accel)
    (minus_one round_negative_to_zero : bool) : list float :=
  map (vector_magnitude minus_one round_negative_to_zero) acceleration.

(** ** Frequencies *)

Definition nanos_per_day : Z := 86400000000000.

(** The fixed-width frequency units of [pandas.tseries.frequencies.to_offset]
    with their widths in nanoseconds. *)
Definition unit_nanos (u : string) : option Z :=
  if String.eqb u "D" then Some nanos_per_day
  else if String.eqb u "h" || String.eqb u "H" then Some 3600000000000
  else if String.eqb u "min" || String.eqb u "T" then Some 60000000000
  else if String.eqb u "s" || String.eqb u "S" then Some 1000000000
  else if String.eqb u "ms" || String.eqb u "L" then Some 1000000
  else if String.eqb u "us" || String.eqb u "U" then Some 1000
  else if String.eqb u "ns" || String.eqb u "N" then Some 1
  else None.

Definition digit_of (c : ascii) : option Z :=
  let n := Z.of_nat (nat_of_ascii c) in
  if (48 <=? n) && (n <=? 57) then Some (n - 48) else None.

(** Splits the leading decimal count from the unit; [acc] is the count read so
    far, [None] when no digit has been read. *)
Fixpoint split_count (s : string) (acc : option Z) : option Z * string :=
  match s with
  | EmptyString => (acc, EmptyString)
  | String c rest =>
      match digit_of c with
      | Some d =>
          split_count rest (Some (10 * match acc with Some a => a | None => 0 end + d))
      | None => (acc, s)
      end
  end.

(** What a frequency string stands for.  A count followed by one fixed-width
    unit is a [Tick] of so many nanoseconds; "W" (one week, ending on
    Sunday) is [Week]; what pandas makes of any other string is not spelled
    out here, the string is kept as it is. *)
Inductive offset : Type :=
| Tick (nanos : Z)
| Week
| Other (rule : string).

Definition is_week (count : option Z) (u : string) : bool :=
  (String.eqb u "W" || String.eqb u "W-SUN")
  && match count with
     | None => true
     | Some c => c =? 1
     end.

(** [to_offset "5min"] is a tick of five minutes; a missing count is one. *)
Definition to_offset (freq : string) : offset :=
  let '(count, u) := split_count freq None in
  match unit_nanos u with
  | Some w => Tick (match count with Some c => c | None => 1 end * w)
  | None => if is_week count u then Week else Other freq
  end.

(** Python's truth value of the [interval] argument: [None] and the empty
    string are false. *)
Definition truthy (interval : option string) : bool :=
  match interval with
  | None => false
  | Some s => negb (String.eqb s "")
  end.

(** ** Epoch means

    [DataFrame.resample(freq).mean()] on a frame indexed by time.  For a
    fixed-width frequency pandas lays out left-closed, left-labelled bins of
    width [freq], aligned to midnight of the first sample's day
    ([origin='start_day']), from the bin of the earliest sample to the bin of
    the latest one; a bin with no sample stays in the result with mean NaN. *)

(** The mean of one group as [group_mean] computes it: compensated summation
    over the values that are not NaN, divided by their number; NaN when there
    is none. *)
Fixpoint kahan_sum (vals : list float) (sumx compensation : float) (nobs : nat)
  : float * nat :=
  match vals with
  | [] => (sumx, nobs)
  | val :: rest =>
      if (val =? val)%float then
        let y := (val - compensation)%float in
        let t := (sumx + y)%float in
        let c := (t - sumx - y)%float in
        let c := if (c =? c)%float then c else 0%float in
        kahan_sum rest t c (S nobs)
      else kahan_sum rest sumx compensation nobs
  end.

Definition float_of_nat (n : nat) : float :=
  PrimFloat.of_uint63 (Uint63.of_Z (Z.of_nat n)).

Definition group_mean (vals : list float) : float :=
  let '(sumx, nobs) := kahan_sum vals 0%float 0%float O in
  match nobs with
  | O => nan
  | _ => (sumx / float_of_nat nobs)%float
  end.

(** The left edges of the bins, which are also their labels. *)
Definition bin_edges (times : list Z) (freq : Z) : list Z :=
  match times with
  | [] => []
  | t0 :: _ =>
      let first := fold_right Z.min t0 times in
      let last := fold_right Z.max t0 times in
      let origin := first - first mod nanos_per_day in
      let foffset := (first - origin) mod freq in
      let loffset := (last - origin) mod freq in
      let fresult := if 0 <? foffset then first - foffset else first in
      let lresult := if 0 <? loffset then last + (freq - loffset) else last + freq in
      map (fun k => fresult + Z.of_nat k * freq)
          (seq 0 (Z.to_nat ((lresult - fresult) / freq)))
  end.

(** The entries of a column whose time stamp falls into [lo, hi). *)
Fixpoint select_bin {A : Type} (times : list Z) (vals : list A) (lo hi : Z)
  : list A :=
  match times, vals with
  | t :: times', v :: vals' =>
      if (lo <=? t) && (t <? hi) then v :: select_bin times' vals' lo hi
      else select_bin times' vals' lo hi
  | _, _ => []
  end.

(** A frame with one column moved into the index. *)
Record indexed : Type := Indexed {
  index_name : string;
  index : list cell;
  columns : table
}.

Definition set_index (name : string) (t : table) : result indexed :=
  match lookup name t with
  | Some idx =>
      Ok (Indexed name idx (filter (fun nc => negb (String.eqb (fst nc) name)) t))
  | None => Raise KeyError
  end.

(** Resampling sorts the frame by its index first, with a stable sort, when
    the index is not ascending; here one column is sorted with the index. *)
Fixpoint insert_by_time {A : Type} (p : Z * A) (l : list (Z * A)) : list (Z * A) :=
  match l with
  | [] => [p]
  | q :: l' =>
      if fst q <? fst p then q :: insert_by_time p l' else p :: q :: l'
  end.

Definition sort_by_time {A : Type} (times : list Z) (vals : list A)
  : list (Z * A) :=
  fold_right insert_by_time [] (combine times vals).

(** The mean of a column over the samples with a time stamp in [lo, hi). *)
Definition bin_mean (times : list Z) (vals : list float) (lo hi : Z) : float :=
  let sorted := sort_by_time times vals in
  group_mean (select_bin (map fst sorted) (map snd sorted) lo hi).

(** The time stamps pandas can hold: [Timestamp.min] and [Timestamp.max], in
    nanoseconds. *)
Definition ts_min : Z := -9223372036854775807.
Definition ts_max : Z := 9223372036854775807.

(** A bin of the resampled frame: its label, and the time stamps it holds,
    from [lo] up to but not including [hi]. *)
Definition bin : Type := (Z * Z * Z)%type.

Definition bin_label (b : bin) : Z := fst (fst b).
Definition bin_lo (b : bin) : Z := snd (fst b).
Definition bin_hi (b : bin) : Z := snd b.

(** Midnight of the day of [t] ([Timestamp.normalize]). *)
Definition day_start (t : Z) : Z := t - t mod nanos_per_day.

(** The bins of a fixed-width frequency.  The edges cannot be built when
    the midnight before the first sample or the right edge after the last one
    is outside the range of time stamps, or when the width itself is:
    [OutOfBoundsDatetime], which is a [ValueError]. *)
Definition tick_bins (times : list Z) (freq : Z) : result (list bin) :=
  if freq <=? 0 then Raise ValueError
  else if ts_max <? freq then Raise ValueError
  else
    match times with
    | [] => Ok []
    | t0 :: _ =>
        let first := fold_right Z.min t0 times in
        let last := fold_right Z.max t0 times in
        let origin := day_start first in
        let loffset := (last - origin) mod freq in
        let lresult := if 0 <? loffset then last + (freq - loffset) else last + freq in
        if (origin <? ts_min) || (ts_max <? lresult) then Raise ValueError
        else Ok (map (fun lo => (lo, lo, lo + freq)) (bin_edges times freq))
    end.

(** The day of the week of a midnight, Monday being 0; 1970-01-01 was a
    Thursday. *)
Definition weekday (midnight : Z) : Z := (midnight / nanos_per_day + 3) mod 7.

(** The bins between consecutive Sundays: each is labelled by the Sunday that
    ends it and holds the time stamps after the end of the Sunday before, up
    to the end of its own Sunday. *)
Fixpoint week_pairs (binner : list Z) : list bin :=
  match binner with
  | [] => []
  | a :: rest =>
      match rest with
      | [] => []
      | b :: _ => (b, a + nanos_per_day, b + nanos_per_day) :: week_pairs rest
      end
  end.

(** The bins of the weekly frequency "W": right-closed and right-labelled.
    The edges run from the Sunday before the day of the first sample to the
    Sunday after the day of the last one; each edge is moved to the last
    nanosecond of its day; the last edge is dropped when the edge before it
    is already after every sample. *)
Definition week_bins (times : list Z) : result (list bin) :=
  match times with
  | [] => Ok []
  | t0 :: _ =>
      let week := 7 * nanos_per_day in
      let vmin := fold_right Z.min t0 times in
      let vmax := fold_right Z.max t0 times in
      let first := day_start vmin in
      let last := day_start vmax in
      let first := first + ((6 - weekday first) mod 7) * nanos_per_day - week in
      let last := if weekday last =? 6 then last + week
                  else last + ((6 - weekday last) mod 7) * nanos_per_day in
      if (first <? ts_min) || (ts_max <? last + nanos_per_day - 1) then Raise ValueError
      else
        let n := Z.to_nat ((last - first) / week) in
        let binner := map (fun k => first + Z.of_nat k * week) (seq 0 (S n)) in
        let binner :=
          if vmax <? nth (n - 1) binner 0 + nanos_per_day - 1
          then removelast binner else binner in
        Ok (week_pairs binner)
  end.

(** One column after resampling: the mean of every bin. *)
Definition window_means (times : list Z) (vals : list float) (bins : list bin)
  : list cell :=
  map (fun b => Flt (bin_mean times vals (bin_lo b) (bin_hi b))) bins.

Section Pandas.

(** What [resample] makes of the frequency strings that are neither a tick
    nor "W": the bins it lays out over the given time stamps, or the
    exception it raises.  Nothing is assumed about it. *)
Variable other_bins : string -> list Z -> result (list bin).

Definition offset_bins (o : offset) (times : list Z) : result (list bin) :=
  match o with
  | Tick freq => tick_bins times freq
  | Week => week_bins times
  | Other rule => other_bins rule times
  end.

Definition resample_mean (o : offset) (df : indexed) : result indexed :=
  rbind (rmap cell_time (index df)) (fun times =>
  rbind (offset_bins o times) (fun bins =>
  rbind (rmap (fun nc : string * list cell =>
           rbind (rmap cell_float (snd nc)) (fun vals =>
           Ok (fst nc, window_means times vals bins)))
         (columns df)) (fun cols =>
  Ok (Indexed (index_name df) (map (fun b => Tm (bin_label b)) bins) cols)))).

Definition reset_index (df : indexed) : table :=
  (index_name df, index df) :: columns df.

(** ** Comparison with a cutpoint *)

(** [values >= cutpoint], elementwise; a comparison with NaN is false. *)
Definition ge_scalar (cutpoint : float) (values : list cell) : result (list cell) :=
  rmap (fun c => rbind (cell_float c) (fun x => Ok (Bl (cutpoint <=? x)%float))) values.

(** [values <= cutpoint], elementwise. *)
Definition le_scalar (cutpoint : float) (values : list cell) : result (list cell) :=
  rmap (fun c => rbind (cell_float c) (fun x => Ok (Bl (x <=? cutpoint)%float))) values.

(** ** The as-of join

    [pandas.merge_asof(left, right, on=key)]: a left join in which every row
    of [left] is paired with the last row of [right] whose key is not after
    its own.  Both key columns must be sorted.  The positions are found by the
    linear scan of [asof_join_backward]: one pointer into [right] which moves
    forward only. *)

Fixpoint is_sorted (l : list Z) : bool :=
  match l with
  | [] => true
  | a :: rest =>
      match rest with
      | [] => true
      | b :: _ => (a <=? b) && is_sorted rest
      end
  end.

(** The inner loop: while [right_pos < right_size] and
    [right_values[right_pos] <= left_value], advance. *)
Fixpoint advance (fuel : nat) (right_values : list Z) (right_pos : Z) (left_value : Z)
  : Z :=
  match fuel with
  | O => right_pos
  | S fuel' =>
      match nth_error right_values (Z.to_nat right_pos) with
      | Some r =>
          if r <=? left_value
          then advance fuel' right_values (right_pos + 1) left_value
          else right_pos
      | None => right_pos
      end
  end.

(** The outer loop; the result lists [right_indexer], with -1 for no match. *)
Fixpoint asof_scan (left_values right_values : list Z) (right_pos : Z) : list Z :=
  match left_values with
  | [] => []
  | lv :: rest =>
      let right_pos := if right_pos <? 0 then 0 else right_pos in
      let right_pos := advance (List.length right_values) right_values right_pos lv in
      let right_pos := right_pos - 1 in
      right_pos :: asof_scan rest right_values right_pos
  end.

Definition asof_join_backward (left_values right_values : list Z) : list Z :=
  asof_scan left_values right_values 0.

(** Row [i] of a column, or the fill value when [i] is -1. *)
Definition take (cells : list cell) (indexer : list Z) : list cell :=
  map (fun i => if i <? 0 then NA else nth (Z.to_nat i) cells NA) indexer.

Definition merge_asof (left right : table) (on : string) : result table :=
  match lookup on left, lookup on right with
  | Some lk, Some rk =>
      rbind (rmap cell_time lk) (fun left_values =>
      rbind (rmap cell_time rk) (fun right_values =>
      if negb (is_sorted left_values) then Raise ValueError
      else if negb (is_sorted right_values) then Raise ValueError
      else
        let right_indexer := asof_join_backward left_values right_values in
        let lcols :=
          map (fun nc : string * list cell =>
                 (if negb (String.eqb (fst nc) on) && mem (fst nc) (names right)
                  then String.append (fst nc) "_x" else fst nc, snd nc)) left in
        let rcols :=
          map (fun nc : string * list cell =>
                 (if mem (fst nc) (names left) then String.append (fst nc) "_y" else fst nc,
                  take (snd nc) right_indexer))
              (filter (fun nc => negb (String.eqb (fst nc) on)) right) in
        Ok (lcols ++ rcols)))
  | _, _ => Raise KeyError
  end.

(** ** The store

    The two numpy arrays the caller passes in, and the frames created so far.
    A frame is addressed by its position in [frames]. *)

Record state : Type := State {
  np_time : list Z;
  np_acceleration : list accel;
  frames : list DataFrame
}.

Definition loc : Type := nat.

Definition M (A : Type) : Type := state -> result A * state.

Definition ret {A : Type} (a : A) : M A := fun st => (Ok a, st).

Definition raise {A : Type} (e : exn) : M A := fun st => (Raise e, st).

Definition bind {A B : Type} (m : M A) (k : A -> M B) : M B :=
  fun st =>
    match m st with
    | (Ok a, st') => k a st'
    | (Raise e, st') => (Raise e, st')
    end.

Definition lift {A : Type} (r : result A) : M A := fun st => (r, st).

Notation "x <- m ;; k" := (bind m (fun x => k))
  (at level 61, m at next level, right associativity).
Notation "m ;;; k" := (bind m (fun _ => k))
  (at level 61, right associativity).

Definition alloc (df : DataFrame) : M loc :=
  fun st =>
    (Ok (List.length (frames st)),
     State (np_time st) (np_acceleration st) (frames st ++ [df])).

Definition load (l : loc) : M DataFrame :=
  fun st =>
    match nth_error (frames st) l with
    | Some df => (Ok df, st)
    | None => (Raise KeyError, st)
    end.

Fixpoint list_set {A : Type} (l : list A) (i : nat) (a : A) : list A :=
  match l, i with
  | [], _ => []
  | _ :: rest, O => a :: rest
  | x :: rest, S i' => x :: list_set rest i' a
  end.

Definition store (l : loc) (df : DataFrame) : M unit :=
  fun st =>
    (Ok tt, State (np_time st) (np_acceleration st) (list_set (frames st) l df)).

(** The cells of a column; a view reads the acceleration array as it is now. *)
Definition cells_of (c : column) : M (list cell) :=
  fun st =>
    match c with
    | Own cells => (Ok cells, st)
    | ViewAcc k => (Ok (map (fun a => Flt (axis_of k a)) (np_acceleration st)), st)
    end.

Fixpoint cells_of_all (cols : DataFrame) : M table :=
  match cols with
  | [] => ret []
  | (n, c) :: rest =>
      cells <- cells_of c ;;
      t <- cells_of_all rest ;;
      ret ((n, cells) :: t)
  end.

(** The data of the frame at [l]. *)
Definition read_frame (l : loc) : M table :=
  df <- load l ;;
  cells_of_all df.

Definition own (t : table) : DataFrame :=
  map (fun nc => (fst nc, Own (snd nc))) t.

Definition nrows (t : table) : nat :=
  match t with
  | [] => O
  | (_, cells) :: _ => List.length cells
  end.

(** Writes through a view: axis [k] of the caller's array is overwritten. *)
Definition write_axis (k : nat) (vals : list float) : M unit :=
  fun st =>
    (Ok tt,
     State (np_time st)
           (map (fun av => set_axis k (snd av) (fst av))
                (combine (np_acceleration st) vals))
           (frames st)).

(** [pd.DataFrame(acceleration, columns=cols)]. *)
Definition DataFrame_of_acceleration (cols : list string) : M loc :=
  match cols with
  | [c0; c1; c2] => alloc [(c0, ViewAcc 0); (c1, ViewAcc 1); (c2, ViewAcc 2)]
  | _ => raise ValueError
  end.

(** [df.loc[:, name] = values]: a column that exists is overwritten in place,
    a new one is appended; the length must be the frame's. *)
Definition loc_setitem (l : loc) (name : string) (values : list cell) : M unit :=
  df <- load l ;;
  t <- cells_of_all df ;;
  if negb (Nat.eqb (List.length values) (nrows t)) then raise ValueError
  else
    match lookup name df with
    | None => store l (df ++ [(name, Own values)])
    | Some (Own _) => store l (replace name (Own values) df)
    | Some (ViewAcc k) =>
        vals <- lift (rmap cell_float values) ;;
        write_axis k vals
    end.

(** [df[name].values]. *)
Definition getitem (l : loc) (name : string) : M (list cell) :=
  t <- read_frame l ;;
  match lookup name t with
  | Some cells => ret cells
  | None => raise KeyError
  end.

Fixpoint pick (cols : list string) (t : table) : result table :=
  match cols with
  | [] => Ok []
  | n :: rest =>
      match lookup n t with
      | Some cells => rbind (pick rest t) (fun t' => Ok ((n, cells) :: t'))
      | None => Raise KeyError
      end
  end.

(** [df[[c1, ..., ck]]]: a new frame with copies of the named columns. *)
Definition getitems (l : loc) (cols : list string) : M loc :=
  t <- read_frame l ;;
  t' <- lift (pick cols t) ;;
  alloc (own t').

(** [df.values]: the frame as a two-dimensional array, one list per row. *)
Definition values (l : loc) : M (list (list cell)) :=
  t <- read_frame l ;;
  ret (map (fun i => map (fun nc : string * list cell => nth i (snd nc) NA) t)
           (seq 0 (nrows t))).

(** ** calculate_pa_levels *)

Definition mvpa_cutpoint_default : float := 0.069%float.
Definition sb_cutpoint_default : float := 0.015%float.
Definition interval_default : option string := Some "1s".

Definition interval_freq (interval : option string) : result offset :=
  match interval with
  | Some s => Ok (to_offset s)
  | None => Raise TypeError
  end.

(** The body of the function, run on a store that holds the caller's arrays
    [time] and [acceleration]. *)
Definition calculate_pa_levels_body (mvpa_cutpoint sb_cutpoint : float)
    (interval : option string) : M (list (list cell)) :=
  data <- DataFrame_of_acceleration ["Y"; "X"; "Z"] ;;
  time <- (fun st => (Ok (np_time st), st)) ;;
  loc_setitem data "Time" (map Tm time) ;;;
  acceleration <- (fun st => (Ok (np_acceleration st), st)) ;;
  loc_setitem data "EMNO"
    (map Flt (calculate_vector_magnitude acceleration true true)) ;;;
  tmp <- (if truthy interval then
            t <- read_frame data ;;
            r <- lift (rbind (set_index "Time" t) (fun ix =>
                       rbind (interval_freq interval) (fun freq =>
                       rbind (resample_mean freq ix) (fun means =>
                       Ok (reset_index means))))) ;;
            alloc (own r)
          else ret data) ;;
  emno <- getitem tmp "EMNO" ;;
  mvpa <- lift (ge_scalar mvpa_cutpoint emno) ;;
  loc_setitem tmp "MVPA" mvpa ;;;
  emno <- getitem tmp "EMNO" ;;
  sb <- lift (le_scalar sb_cutpoint emno) ;;
  loc_setitem tmp "SB" sb ;;;
  left <- read_frame data ;;
  labels <- getitems tmp ["Time"; "MVPA"; "SB"] ;;
  right <- read_frame labels ;;
  merged <- lift (merge_asof left right "Time") ;;
  data <- alloc (own merged) ;;
  out <- getitems data ["MVPA"; "SB"] ;;
  values out.

(** A call with fresh arrays: the result, and the store the call leaves. *)
Definition run_pa_levels (time : list Z) (acceleration : list accel)
    (mvpa_cutpoint sb_cutpoint : float) (interval : option string)
  : result (list (list cell)) * state :=
  calculate_pa_levels_body mvpa_cutpoint sb_cutpoint interval
    (State time acceleration []).

Definition calculate_pa_levels (time : list Z) (acceleration : list accel)
    (mvpa_cutpoint sb_cutpoint : float) (interval : option string)
  : result (list (list cell)) :=
  fst (run_pa_levels time acceleration mvpa_cutpoint sb_cutpoint interval).

(** * Notions used in the statements *)

(** The data of a frame, given the acceleration array its views read. *)
Definition table_of (acceleration : list accel) (df : DataFrame) : table :=
  map (fun nc : string * column =>
         (fst nc,
          match snd nc with
          | Own cells => cells
          | ViewAcc k => map (fun a => Flt (axis_of k a)) acceleration
          end)) df.

(** The number of keys that are not after [t]. *)
Definition count_le (keys : list Z) (t : Z) : nat :=
  List.length (filter (fun r => r <=? t) keys).

(** The earliest and the latest time stamp of a series. *)
Definition earliest (time : list Z) : Z :=
  match time with
  | [] => 0
  | t0 :: _ => fold_right Z.min t0 time
  end.

Definition latest (time : list Z) : Z :=
  match time with
  | [] => 0
  | t0 :: _ => fold_right Z.max t0 time
  end.

(** The start of the epoch that holds [t]: epochs of width [freq] are laid
    out from midnight of the day of the earliest sample. *)
Definition epoch_start (time : list Z) (freq t : Z) : Z :=
  let origin := earliest time - earliest time mod nanos_per_day in
  t - (t - origin) mod freq.

(** The mean ENMO of the epoch that starts at [lo]. *)
Definition epoch_mean (time : list Z) (acceleration : list accel) (freq lo : Z)
  : float :=
  bin_mean time (calculate_vector_magnitude acceleration true true) lo (lo + freq).

(** One column of [tmp] for a fixed width: the mean of every bin. *)
Definition bin_means (times : list Z) (vals : list float) (freq : Z) : list cell :=
  map (fun lo => Flt (bin_mean times vals lo (lo + freq))) (bin_edges times freq).

(** [data] once the columns [Time] and [EMNO] are added. *)
Definition data_frame (time : list Z) (acceleration : list accel) : DataFrame :=
  [("Y", ViewAcc 0); ("X", ViewAcc 1); ("Z", ViewAcc 2);
   ("Time", Own (map Tm time));
   ("EMNO", Own (map Flt (calculate_vector_magnitude acceleration true true)))].

(** [tmp] after resampling and classification: one row per bin. *)
Definition epoch_frame (time : list Z) (acceleration : list accel)
    (mvpa_cutpoint sb_cutpoint : float) (freq : Z) : DataFrame :=
  [("Time", Own (map Tm (bin_edges time freq)));
   ("Y", Own (bin_means time (map (axis_of 0) acceleration) freq));
   ("X", Own (bin_means time (map (axis_of 1) acceleration) freq));
   ("Z", Own (bin_means time (map (axis_of 2) acceleration) freq));
   ("EMNO",
    Own (bin_means time (calculate_vector_magnitude acceleration true true) freq));
   ("MVPA",
    Own (map (fun lo => Bl (mvpa_cutpoint <=? epoch_mean time acceleration freq lo)%float)
             (bin_edges time freq)));
   ("SB",
    Own (map (fun lo => Bl (epoch_mean time acceleration freq lo <=? sb_cutpoint)%float)
             (bin_edges time freq)))].

(** The bins of a fixed width, as [tick_bins] lays them out. *)
Definition tick_windows (time : list Z) (freq : Z) : list bin :=
  map (fun lo => (lo, lo, lo + freq)) (bin_edges time freq).

(** The mean ENMO of a bin. *)
Definition window_mean (time : list Z) (acceleration : list accel) (b : bin)
  : float :=
  bin_mean time (calculate_vector_magnitude acceleration true true)
           (bin_lo b) (bin_hi b).

(** [tmp] after resampling and classification, for any bins. *)
Definition window_frame (time : list Z) (acceleration : list accel)
    (mvpa_cutpoint sb_cutpoint : float) (bins : list bin) : DataFrame :=
  [("Time", Own (map (fun b => Tm (bin_label b)) bins));
   ("Y", Own (window_means time (map (axis_of 0) acceleration) bins));
   ("X", Own (window_means time (map (axis_of 1) acceleration) bins));
   ("Z", Own (window_means time (map (axis_of 2) acceleration) bins));
   ("EMNO",
    Own (window_means time (calculate_vector_magnitude acceleration true true) bins));
   ("MVPA",
    Own (map (fun b => Bl (mvpa_cutpoint <=? window_mean time acceleration b)%float)
             bins));
   ("SB",
    Own (map (fun b => Bl (window_mean time acceleration b <=? sb_cutpoint)%float)
             bins))].

(** The row of a sample whose partner in [tmp] is at position [j]; -1 stands
    for no partner. *)
Definition row_at (time : list Z) (acceleration : list accel)
    (mvpa_cutpoint sb_cutpoint : float) (bins : list bin) (j : Z) : list cell :=
  [if j <? 0 then NA
   else nth (Z.to_nat j)
          (map (fun b => Bl (mvpa_cutpoint <=? window_mean time acceleration b)%float)
               bins) NA;
   if j <? 0 then NA
   else nth (Z.to_nat j)
          (map (fun b => Bl (window_mean time acceleration b <=? sb_cutpoint)%float)
               bins) NA].

(** The rows of a call whose resampling gave [bins]. *)
Definition window_rows (time : list Z) (acceleration : list accel)
    (mvpa_cutpoint sb_cutpoint : float) (bins : list bin) : list (list cell) :=
  map (row_at time acceleration mvpa_cutpoint sb_cutpoint bins)
      (asof_join_backward time (map bin_label bins)).

(** Time stamps and a width that keep the grid of bins inside the range of
    time stamps: every time stamp is at least a day after [Timestamp.min],
    and a width before [Timestamp.max]. *)
Definition within_range (time : list Z) (freq : Z) : Prop :=
  freq <= ts_max
  /\ Forall (fun t => ts_min + nanos_per_day <= t /\ t + freq <= ts_max) time.

(** A reading of the other frequency strings, for the examples: none of them
    is a frequency. *)
Definition no_other (rule : string) (times : list Z) : result (list bin) :=
  Raise ValueError.

(** The labels of the sample at [t]: those of the epoch that holds it. *)
Definition sample_levels (time : list Z) (acceleration : list accel)
    (mvpa_cutpoint sb_cutpoint : float) (freq : Z) (t : Z) : list cell :=
  let e := epoch_mean time acceleration freq (epoch_start time freq t) in
  [Bl (mvpa_cutpoint <=? e)%float; Bl (e <=? sb_cutpoint)%float].

(** The frame bound to [tmp] when the interval is set: the second frame a
    call creates. *)
Definition tmp_frame (st : state) : option DataFrame := nth_error (frames st) 1.

(** A float that is not NaN has a place in the lexicographic order of
    (sign class, exponent, mantissa); [SFcompare] compares these places. *)
Definition key (a : spec_float) : option (Z * Z * Z) :=
  match a with
  | S754_nan => None
  | S754_infinity true => Some (-2, 0, 0)
  | S754_infinity false => Some (2, 0, 0)
  | S754_zero _ => Some (0, 0, 0)
  | S754_finite true m e => Some (-1, - e, - Z.pos m)
  | S754_finite false m e => Some (1, e, Z.pos m)
  end.

(** The lexicographic comparison of two such places. *)
Definition lex (p q : Z * Z * Z) : comparison :=
  let '(a1, b1, c1) := p in let '(a2, b2, c2) := q in
  match a1 ?= a2 with
  | Eq => match b1 ?= b2 with Eq => c1 ?= c2 | r => r end
  | r => r
  end.

(** One second, in nanoseconds. *)
Definition second : Z := 1000000000.

(** Three samples one second apart, each of magnitude 1.1 along one axis. *)
Definition three_times : list Z := [0; second; 2 * second].

Definition three_samples : list accel :=
  [(1.1, 0, 0); (0, 1.1, 0); (0, 0, 1.1)]%float.

(** Two samples two seconds apart: the epoch that starts at one second holds
    no sample. *)
Definition gap_times : list Z := [0; 2 * second].

Definition gap_samples : list accel := [(1.1, 0, 0); (1.1, 0, 0)]%float.

(** Two samples off the full second: at half a second and just after one
    second. *)
Definition offbeat_times : list Z := [second / 2; second + 1].

(** One sample whose ENMO is 0.5 exactly. *)
Definition half_sample : list accel := [(1.5, 0, 0)%float].

(** * Properties *)

(** ** The store operations on a store that extends another one

    A call finds the frames of earlier calls in the store.  Its own frames
    come after them, so every operation is described on a store [h ++ l]
    where [l] holds the frames of the call and a location is
    [length h + k]. *)

Lemma cells_of_all_eq (df : DataFrame) (st : state) :
  cells_of_all df st = (Ok (table_of (np_acceleration st) df), st).
Proof.
  induction df as [|[n c] df IH]; [reflexivity|].
  cbn [cells_of_all]. unfold bind at 1.
  destruct c; cbn [cells_of]; unfold bind at 1; rewrite IH; reflexivity.
Qed.

Section Extended.
Local Open Scope nat_scope.
Variables (t : list Z) (a : list accel) (h l : list DataFrame).

Lemma alloc_app (df : DataFrame) :
  alloc df (State t a (h ++ l))
  = (Ok (List.length h + List.length l)%nat, State t a (h ++ (l ++ [df]))).
Proof.
  unfold alloc; cbn [frames np_time np_acceleration].
  now rewrite length_app, app_assoc.
Qed.

Lemma load_app (k : nat) (df : DataFrame) :
  nth_error l k = Some df ->
  load (List.length h + k) (State t a (h ++ l)) = (Ok df, State t a (h ++ l)).
Proof.
  intros H. unfold load; cbn [frames].
  rewrite nth_error_app2 by lia.
  replace (List.length h + k - List.length h)%nat with k by lia.
  now rewrite H.
Qed.

Lemma list_set_app (k : nat) (df : DataFrame) :
  list_set (h ++ l) (List.length h + k) df = h ++ list_set l k df.
Proof.
  induction h as [|x h' IH]; [reflexivity|].
  cbn. now rewrite IH.
Qed.

Lemma store_app (k : nat) (df : DataFrame) :
  store (List.length h + k) df (State t a (h ++ l))
  = (Ok tt, State t a (h ++ list_set l k df)).
Proof.
  unfold store; cbn [frames np_time np_acceleration].
  now rewrite list_set_app.
Qed.

Lemma read_frame_app (k : nat) (df : DataFrame) :
  nth_error l k = Some df ->
  read_frame (List.length h + k) (State t a (h ++ l))
  = (Ok (table_of a df), State t a (h ++ l)).
Proof.
  intros H. unfold read_frame, bind.
  rewrite (load_app k df H). now rewrite cells_of_all_eq.
Qed.

Lemma loc_setitem_new (k : nat) (df : DataFrame) (name : string)
    (vals : list cell) :
  nth_error l k = Some df ->
  lookup name df = None ->
  List.length vals = nrows (table_of a df) ->
  loc_setitem (List.length h + k) name vals (State t a (h ++ l))
  = (Ok tt, State t a (h ++ list_set l k (df ++ [(name, Own vals)]))).
Proof.
  intros H Hn Hl. unfold loc_setitem, bind.
  rewrite (load_app k df H), cells_of_all_eq. cbn [np_acceleration].
  rewrite Hl, Nat.eqb_refl. cbn [negb]. rewrite Hn. apply store_app.
Qed.

Lemma loc_setitem_length (k : nat) (df : DataFrame) (name : string)
    (vals : list cell) :
  nth_error l k = Some df ->
  List.length vals <> nrows (table_of a df) ->
  loc_setitem (List.length h + k) name vals (State t a (h ++ l))
  = (Raise ValueError, State t a (h ++ l)).
Proof.
  intros H Hl. unfold loc_setitem, bind.
  rewrite (load_app k df H), cells_of_all_eq. cbn [np_acceleration].
  apply Nat.eqb_neq in Hl. now rewrite Hl.
Qed.

Lemma getitem_app (k : nat) (df : DataFrame) (name : string) :
  nth_error l k = Some df ->
  getitem (List.length h + k) name (State t a (h ++ l))
  = (match lookup name (table_of a df) with
     | Some cells => Ok cells
     | None => Raise KeyError
     end, State t a (h ++ l)).
Proof.
  intros H. unfold getitem, bind. rewrite (read_frame_app k df H).
  now destruct (lookup name (table_of a df)).
Qed.

Lemma getitems_app (k : nat) (df : DataFrame) (cols : list string) :
  nth_error l k = Some df ->
  getitems (List.length h + k) cols (State t a (h ++ l))
  = match pick cols (table_of a df) with
    | Ok t' => (Ok (List.length h + List.length l)%nat,
                State t a (h ++ (l ++ [own t'])))
    | Raise e => (Raise e, State t a (h ++ l))
    end.
Proof.
  intros H. unfold getitems, bind. rewrite (read_frame_app k df H).
  unfold lift. destruct (pick cols (table_of a df)); [apply alloc_app|reflexivity].
Qed.

Lemma values_app (k : nat) (df : DataFrame) :
  nth_error l k = Some df ->
  values (List.length h + k) (State t a (h ++ l))
  = (Ok (map (fun i => map (fun nc : string * list cell => nth i (snd nc) NA)
                           (table_of a df))
             (seq 0 (nrows (table_of a df)))),
     State t a (h ++ l)).
Proof.
  intros H. unfold values, bind. now rewrite (read_frame_app k df H).
Qed.
End Extended.


(** ** Elementwise operations on columns *)

Lemma rmap_map_ok {A B C : Type} (f : B -> result C) (g : A -> B) (k : A -> C)
    (l : list A) :
  (forall x, f (g x) = Ok (k x)) -> rmap f (map g l) = Ok (map k l).
Proof.
  intros H. induction l as [|x l IH]; [reflexivity|].
  cbn [map rmap]. now rewrite H, IH.
Qed.

Lemma rmap_cell_time_Tm (l : list Z) : rmap cell_time (map Tm l) = Ok l.
Proof.
  rewrite (rmap_map_ok cell_time Tm (fun x => x)) by reflexivity.
  now rewrite map_id.
Qed.

Lemma rmap_cell_float_Flt (l : list float) : rmap cell_float (map Flt l) = Ok l.
Proof.
  rewrite (rmap_map_ok cell_float Flt (fun x => x)) by reflexivity.
  now rewrite map_id.
Qed.

Lemma rmap_cell_float_axis (k : nat) (acc : list accel) :
  rmap cell_float (map (fun a => Flt (axis_of k a)) acc) = Ok (map (axis_of k) acc).
Proof. now apply rmap_map_ok. Qed.

Lemma ge_scalar_means (cut : float) (times : list Z) (vals : list float)
    (bins : list bin) :
  ge_scalar cut (window_means times vals bins)
  = Ok (map (fun b => Bl (cut <=? bin_mean times vals (bin_lo b) (bin_hi b))%float)
            bins).
Proof. unfold ge_scalar, window_means. now apply rmap_map_ok. Qed.

Lemma le_scalar_means (cut : float) (times : list Z) (vals : list float)
    (bins : list bin) :
  le_scalar cut (window_means times vals bins)
  = Ok (map (fun b => Bl (bin_mean times vals (bin_lo b) (bin_hi b) <=? cut)%float)
            bins).
Proof. unfold le_scalar, window_means. now apply rmap_map_ok. Qed.

Lemma rmap_cell_time_labels (bins : list bin) :
  rmap cell_time (map (fun b => Tm (bin_label b)) bins) = Ok (map bin_label bins).
Proof. now apply rmap_map_ok. Qed.

(** ** Sorted keys and the linear scan *)

Lemma is_sorted_cons (a : Z) (l : list Z) :
  is_sorted (a :: l) = true -> is_sorted l = true /\ Forall (fun x => a <= x) l.
Proof.
  revert a. induction l as [|b l IH]; intros a H; [now split|].
  cbn [is_sorted] in H. apply andb_prop in H as [Hab Hl].
  apply Z.leb_le in Hab. split; [exact Hl|].
  constructor; [exact Hab|].
  destruct (IH b Hl) as [_ Hall].
  eapply Forall_impl; [|exact Hall]. cbn. intros; lia.
Qed.

Lemma filter_le_none (t : Z) (l : list Z) :
  Forall (fun x => t < x) l -> filter (fun r => r <=? t) l = [].
Proof.
  induction 1 as [|x l Hx _ IH]; [reflexivity|].
  cbn [filter]. now replace (x <=? t) with false by (symmetry; apply Z.leb_gt; lia).
Qed.

Lemma sorted_split (t : Z) (l : list Z) :
  is_sorted l = true ->
  exists later, l = filter (fun r => r <=? t) l ++ later
                /\ Forall (fun x => t < x) later.
Proof.
  induction l as [|a l IH]; intros H; [now exists []|].
  destruct (is_sorted_cons a l H) as [Hl Hall].
  cbn [filter]. destruct (a <=? t) eqn:E.
  - destruct (IH Hl) as [later [Heq Hlater]].
    exists later. split; [|exact Hlater]. cbn [app]. now rewrite <- Heq.
  - apply Z.leb_gt in E.
    assert (Hgt : Forall (fun x => t < x) l)
      by (eapply Forall_impl; [|exact Hall]; cbn; intros; lia).
    rewrite (filter_le_none t l Hgt). exists (a :: l).
    split; [reflexivity|now constructor].
Qed.

Lemma sorted_nth_le (t : Z) (l : list Z) (p : nat) (r : Z) :
  (p < count_le l t)%nat -> nth_error (filter (fun r => r <=? t) l) p = Some r ->
  r <= t.
Proof.
  intros _ H. apply nth_error_In, filter_In in H as [_ H]. now apply Z.leb_le.
Qed.

Lemma count_le_bound (l : list Z) (t : Z) : (count_le l t <= List.length l)%nat.
Proof. unfold count_le. apply filter_length_le. Qed.

Lemma advance_spec (rv : list Z) (t : Z) :
  is_sorted rv = true ->
  forall (fuel p : nat),
    (p <= count_le rv t)%nat -> (List.length rv - p <= fuel)%nat ->
    advance fuel rv (Z.of_nat p) t = Z.of_nat (count_le rv t).
Proof.
  intros Hs. destruct (sorted_split t rv Hs) as [later [Heq Hlater]].
  induction fuel as [|fuel IH]; intros p Hp Hfuel.
  - cbn [advance]. pose proof (count_le_bound rv t). f_equal. lia.
  - cbn [advance]. rewrite Nat2Z.id.
    destruct (Nat.eq_dec p (count_le rv t)) as [->|Hne].
    + rewrite Heq at 1. unfold count_le.
      rewrite nth_error_app2, Nat.sub_diag by lia.
      destruct later as [|x later]; [reflexivity|]. cbn [nth_error].
      apply Forall_inv in Hlater.
      now replace (x <=? t) with false by (symmetry; apply Z.leb_gt; lia).
    + assert (Hlt : (p < count_le rv t)%nat) by lia.
      rewrite Heq. rewrite nth_error_app1 by exact Hlt.
      destruct (nth_error (filter (fun r => r <=? t) rv) p) as [r|] eqn:E.
      * apply (sorted_nth_le t rv p r Hlt) in E. apply Z.leb_le in E.
        rewrite E. rewrite <- Heq.
        replace (Z.of_nat p + 1) with (Z.of_nat (S p)) by lia.
        apply IH; lia.
      * apply nth_error_None in E. unfold count_le in Hlt. lia.
Qed.

Lemma count_le_mono (l : list Z) (t t' : Z) :
  t <= t' -> (count_le l t <= count_le l t')%nat.
Proof.
  intros H. unfold count_le. induction l as [|a l IH]; [reflexivity|].
  cbn [filter]. destruct (a <=? t) eqn:E.
  - apply Z.leb_le in E.
    replace (a <=? t') with true by (symmetry; apply Z.leb_le; lia).
    cbn [List.length]. lia.
  - destruct (a <=? t'); cbn [List.length]; lia.
Qed.

Lemma asof_scan_spec (rv : list Z) :
  is_sorted rv = true ->
  forall (lv : list Z) (rp : Z),
    is_sorted lv = true ->
    Forall (fun t => rp <= Z.of_nat (count_le rv t)) lv ->
    asof_scan lv rv rp = map (fun t => Z.of_nat (count_le rv t) - 1) lv.
Proof.
  intros Hs. induction lv as [|t lv IH]; intros rp Hl Hall; [reflexivity|].
  cbn [asof_scan map].
  destruct (is_sorted_cons t lv Hl) as [Hl' Hge].
  assert (Hadv : advance (List.length rv) rv (if rp <? 0 then 0 else rp) t
                 = Z.of_nat (count_le rv t)).
  { apply Forall_inv in Hall.
    destruct (rp <? 0) eqn:E.
    - apply (advance_spec rv t Hs (List.length rv) 0); lia.
    - apply Z.ltb_ge in E. rewrite <- (Z2Nat.id rp) by lia.
      apply (advance_spec rv t Hs); lia. }
  rewrite Hadv. f_equal. apply IH; [exact Hl'|].
  eapply Forall_impl; [|exact Hge]. cbn. intros t' Ht'.
  pose proof (count_le_mono rv t t' Ht'). lia.
Qed.

Lemma asof_join_backward_spec (lv rv : list Z) :
  is_sorted lv = true -> is_sorted rv = true ->
  asof_join_backward lv rv = map (fun t => Z.of_nat (count_le rv t) - 1) lv.
Proof.
  intros Hl Hr. unfold asof_join_backward.
  apply asof_scan_spec; [exact Hr|exact Hl|].
  apply Forall_forall. intros; lia.
Qed.


(** ** The bins of a resampled series *)

Lemma fold_min_le (d : Z) (l : list Z) (t : Z) :
  In t l -> fold_right Z.min d l <= t.
Proof.
  induction l as [|a l IH]; [easy|]. cbn [fold_right In].
  intros [->|H]; [lia|]. specialize (IH H). lia.
Qed.

Lemma fold_max_ge (d : Z) (l : list Z) (t : Z) :
  In t l -> t <= fold_right Z.max d l.
Proof.
  induction l as [|a l IH]; [easy|]. cbn [fold_right In].
  intros [->|H]; [lia|]. specialize (IH H). lia.
Qed.

Lemma earliest_le (time : list Z) (t : Z) : In t time -> earliest time <= t.
Proof. destruct time as [|t0 l]; [easy|]. apply fold_min_le. Qed.

Lemma latest_ge (time : list Z) (t : Z) : In t time -> t <= latest time.
Proof. destruct time as [|t0 l]; [easy|]. apply fold_max_ge. Qed.

Lemma epoch_start_bounds (time : list Z) (freq t : Z) :
  0 < freq -> epoch_start time freq t <= t < epoch_start time freq t + freq.
Proof.
  intros H. unfold epoch_start.
  pose proof (Z.mod_pos_bound
                (t - (earliest time - earliest time mod nanos_per_day)) freq H).
  lia.
Qed.

(** Two time stamps of one epoch have the same epoch start. *)
Lemma epoch_start_unique (time : list Z) (freq t lo : Z) :
  0 < freq -> epoch_start time freq lo = lo -> lo <= t < lo + freq ->
  epoch_start time freq t = lo.
Proof.
  unfold epoch_start. intros H Hlo Ht.
  set (o := earliest time - earliest time mod nanos_per_day) in *.
  assert (Hm : (lo - o) mod freq = 0) by lia.
  apply Z.mod_divide in Hm; [|lia]. destruct Hm as [q Hq].
  replace (t - o) with ((t - lo) + q * freq) by lia.
  rewrite Z.mod_add by lia. rewrite Z.mod_small by lia. lia.
Qed.

Lemma epoch_start_idem (time : list Z) (freq t : Z) :
  0 < freq -> epoch_start time freq (epoch_start time freq t) = epoch_start time freq t.
Proof.
  intros H. unfold epoch_start.
  set (o := earliest time - earliest time mod nanos_per_day).
  pose proof (Z.div_mod (t - o) freq ltac:(lia)) as Hd.
  replace (t - (t - o) mod freq - o) with (0 + (t - o) / freq * freq) by lia.
  rewrite Z.mod_add by lia. rewrite Z.mod_0_l by lia. lia.
Qed.

(** The bins run from the epoch of the earliest sample to the epoch of the
    latest one, with no gap. *)
Lemma bin_edges_eq (time : list Z) (freq : Z) :
  0 < freq -> time <> [] ->
  bin_edges time freq
  = map (fun k => epoch_start time freq (earliest time) + Z.of_nat k * freq)
        (seq 0 (Z.to_nat ((epoch_start time freq (latest time)
                           - epoch_start time freq (earliest time)) / freq + 1))).
Proof.
  intros H Hne. destruct time as [|t0 l]; [easy|].
  unfold bin_edges, epoch_start.
  change (fold_right Z.min t0 (t0 :: l)) with (earliest (t0 :: l)).
  change (fold_right Z.max t0 (t0 :: l)) with (latest (t0 :: l)).
  set (first := earliest (t0 :: l)). set (last := latest (t0 :: l)).
  cbv zeta. set (o := first - first mod nanos_per_day).
  pose proof (Z.mod_pos_bound (first - o) freq H) as Hf.
  pose proof (Z.mod_pos_bound (last - o) freq H) as Hl.
  assert (E1 : (if 0 <? (first - o) mod freq
                then first - (first - o) mod freq else first)
               = first - (first - o) mod freq)
    by (destruct (0 <? (first - o) mod freq) eqn:E;
        [reflexivity|apply Z.ltb_ge in E; lia]).
  assert (E2 : (if 0 <? (last - o) mod freq
                then last + (freq - (last - o) mod freq) else last + freq)
               = last - (last - o) mod freq + freq)
    by (destruct (0 <? (last - o) mod freq) eqn:E;
        [lia|apply Z.ltb_ge in E; lia]).
  rewrite E1, E2. do 3 f_equal.
  replace (last - (last - o) mod freq + freq - (first - (first - o) mod freq))
    with (last - (last - o) mod freq - (first - (first - o) mod freq) + 1 * freq)
    by lia.
  rewrite Z.div_add by lia. reflexivity.
Qed.

Lemma is_sorted_cons2 (a b : Z) (l : list Z) :
  is_sorted (a :: b :: l) = (a <=? b) && is_sorted (b :: l).
Proof. reflexivity. Qed.

Lemma is_sorted_arith (e0 freq : Z) (a n : nat) :
  0 <= freq -> is_sorted (map (fun k => e0 + Z.of_nat k * freq) (seq a n)) = true.
Proof.
  intros H. revert a. induction n as [|n IH]; intros a; [reflexivity|].
  specialize (IH (S a)). destruct n as [|n]; [reflexivity|].
  cbn [seq map] in *. rewrite is_sorted_cons2, IH, andb_true_r.
  apply Z.leb_le. nia.
Qed.

Lemma bin_edges_sorted (time : list Z) (freq : Z) :
  0 < freq -> is_sorted (bin_edges time freq) = true.
Proof.
  intros H. destruct time as [|t0 l] eqn:E; [reflexivity|].
  rewrite bin_edges_eq by easy. apply is_sorted_arith. lia.
Qed.

Lemma count_le_arith (e0 freq t : Z) (a n : nat) :
  0 < freq -> e0 <= t ->
  count_le (map (fun k => e0 + Z.of_nat k * freq) (seq a n)) t
  = (Nat.min (a + n) (Z.to_nat ((t - e0) / freq) + 1) - a)%nat.
Proof.
  intros H Ht. unfold count_le.
  assert (Hj : 0 <= (t - e0) / freq) by (apply Z.div_pos; lia).
  assert (Hk : forall k : nat,
             (e0 + Z.of_nat k * freq <=? t) = (Z.of_nat k <=? (t - e0) / freq)).
  { intros k. apply eq_true_iff_eq. rewrite !Z.leb_le. split; intros Hle.
    - apply Z.div_le_lower_bound; lia.
    - pose proof (Z.mul_div_le (t - e0) freq H). nia. }
  revert a. induction n as [|n IH]; intros a; [cbn; lia|].
  cbn [seq map filter]. rewrite Hk.
  destruct (Z.of_nat a <=? (t - e0) / freq) eqn:E.
  - apply Z.leb_le in E. cbn [List.length]. rewrite IH. lia.
  - apply Z.leb_gt in E. rewrite IH. lia.
Qed.

(** On the bins of a series, the scan position of a sample is the bin that
    holds it. *)
Lemma bin_of_sample (time : list Z) (freq t : Z) :
  0 < freq -> In t time ->
  exists j : nat,
    count_le (bin_edges time freq) t = S j
    /\ nth_error (bin_edges time freq) j = Some (epoch_start time freq t).
Proof.
  intros H Hin.
  assert (Hne : time <> []) by (intros ->; easy).
  rewrite bin_edges_eq by assumption.
  set (e0 := epoch_start time freq (earliest time)).
  set (eL := epoch_start time freq (latest time)).
  pose proof (earliest_le time t Hin) as Hmin.
  pose proof (latest_ge time t Hin) as Hmax.
  pose proof (epoch_start_bounds time freq (earliest time) H) as Be.
  pose proof (epoch_start_bounds time freq (latest time) H) as Bl.
  pose proof (epoch_start_bounds time freq t H) as Bt.
  fold e0 in Be. fold eL in Bl.
  assert (He0 : epoch_start time freq e0 = e0) by apply epoch_start_idem, H.
  assert (HeL : epoch_start time freq eL = eL) by apply epoch_start_idem, H.
  (* the start of every epoch is a multiple of [freq] away from [e0] *)
  assert (Hmul : forall x, epoch_start time freq x = x -> (x - e0) mod freq = 0).
  { intros x Hx. unfold epoch_start in Hx, He0.
    set (o := earliest time - earliest time mod nanos_per_day) in *.
    assert (Hxo : (x - o) mod freq = 0) by lia.
    assert (Heo : (e0 - o) mod freq = 0) by lia.
    apply Z.mod_divide in Hxo; [|lia]. apply Z.mod_divide in Heo; [|lia].
    destruct Hxo as [q1 Hq1]. destruct Heo as [q2 Hq2].
    replace (x - e0) with (0 + (q1 - q2) * freq) by lia.
    rewrite Z.mod_add by lia. now rewrite Z.mod_0_l by lia. }
  set (lo := epoch_start time freq t) in *.
  assert (Hlo : epoch_start time freq lo = lo) by apply epoch_start_idem, H.
  assert (Hlo_ge : e0 <= lo).
  { destruct (Z_lt_le_dec lo e0) as [Hlt|]; [|assumption].
    pose proof (Hmul lo Hlo) as Hm. apply Z.mod_divide in Hm; [|lia].
    destruct Hm as [q Hq].
    assert (q < 0) by nia. assert (q * freq <= -1 * freq) by nia. lia. }
  assert (Hlo_le : lo <= eL).
  { destruct (Z_lt_le_dec eL lo) as [Hlt|]; [|assumption].
    pose proof (Hmul lo Hlo) as Hm. pose proof (Hmul eL HeL) as Hm'.
    apply Z.mod_divide in Hm; [|lia]. apply Z.mod_divide in Hm'; [|lia].
    destruct Hm as [q Hq]. destruct Hm' as [q' Hq'].
    assert (q' < q) by nia. assert (q' * freq + 1 * freq <= q * freq) by nia.
    lia. }
  pose proof (Hmul lo Hlo) as Hm. apply Z.mod_divide in Hm; [|lia].
  destruct Hm as [q Hq].
  pose proof (Hmul eL HeL) as Hm'. apply Z.mod_divide in Hm'; [|lia].
  destruct Hm' as [q' Hq'].
  assert (Hq0 : 0 <= q <= q').
  { split.
    - destruct (Z_lt_le_dec q 0); [|assumption]. nia.
    - destruct (Z_lt_le_dec q' q); [|assumption]. nia. }
  assert (Hdiv : (t - e0) / freq = q).
  { symmetry. apply (Z.div_unique_pos (t - e0) freq q (t - lo)); lia. }
  assert (HdivL : (eL - e0) / freq = q').
  { rewrite Hq'. apply Z.div_mul. lia. }
  exists (Z.to_nat q). split.
  - rewrite count_le_arith by lia. rewrite Hdiv, HdivL. lia.
  - rewrite nth_error_map, nth_error_seq, HdivL.
    replace (Z.to_nat q <? Z.to_nat (q' + 1))%nat with true
      by (symmetry; apply Nat.ltb_lt; lia).
    cbn [option_map]. f_equal.
    replace (Z.of_nat (0 + Z.to_nat q)) with q by lia. lia.
Qed.

(** Every bin starts an epoch. *)
Lemma bin_edges_starts (time : list Z) (freq lo : Z) :
  0 < freq -> In lo (bin_edges time freq) -> epoch_start time freq lo = lo.
Proof.
  intros H Hin. destruct time as [|t0 l] eqn:E; [easy|]. rewrite <- E in *.
  rewrite bin_edges_eq in Hin by (subst; easy).
  apply in_map_iff in Hin as [k [<- _]].
  pose proof (epoch_start_idem time freq (earliest time) H) as He.
  set (e0 := epoch_start time freq (earliest time)) in *.
  unfold epoch_start in He |- *.
  set (o := earliest time - earliest time mod nanos_per_day) in *.
  replace (e0 + Z.of_nat k * freq - o) with (e0 - o + Z.of_nat k * freq) by lia.
  rewrite Z.mod_add by lia. lia.
Qed.

(** The bin of a sample is the latest bin that is not after the sample. *)
Lemma bin_of_sample_latest (time : list Z) (freq t lo : Z) :
  0 < freq -> In lo (bin_edges time freq) -> lo <= t ->
  lo <= epoch_start time freq t.
Proof.
  intros H Hin Hle.
  pose proof (epoch_start_bounds time freq t H) as B.
  destruct (Z_le_gt_dec lo (epoch_start time freq t)) as [|Hgt]; [assumption|].
  pose proof (bin_edges_starts time freq lo H Hin) as Hlo.
  pose proof (epoch_start_unique time freq lo (epoch_start time freq t) H
                (epoch_start_idem time freq t H) ltac:(lia)) as Hu.
  lia.
Qed.



(** ** Sorting by time *)

Lemma select_bin_combine {A : Type} (times : list Z) (vals : list A) (lo hi : Z) :
  select_bin (map fst (combine times vals)) (map snd (combine times vals)) lo hi
  = select_bin times vals lo hi.
Proof.
  revert vals. induction times as [|t times IH]; intros vals; [reflexivity|].
  destruct vals as [|v vals]; [reflexivity|].
  cbn [combine map fst snd select_bin]. now rewrite IH.
Qed.

Lemma combine_sorted_head {A : Type} (a : Z) (times : list Z) (v : A)
    (vals : list A) :
  Forall (fun x => a <= x) times ->
  insert_by_time (a, v) (combine times vals) = (a, v) :: combine times vals.
Proof.
  intros H. destruct times as [|b times]; [reflexivity|].
  destruct vals as [|w vals]; [reflexivity|].
  cbn [combine insert_by_time fst]. apply Forall_inv in H.
  now replace (b <? a) with false by (symmetry; apply Z.ltb_ge; lia).
Qed.

(** A series that is already ascending is left as it is. *)
Lemma sort_by_time_sorted {A : Type} (times : list Z) (vals : list A) :
  is_sorted times = true -> sort_by_time times vals = combine times vals.
Proof.
  unfold sort_by_time. revert vals.
  induction times as [|a times IH]; intros vals H; [reflexivity|].
  destruct vals as [|v vals]; [reflexivity|].
  destruct (is_sorted_cons a times H) as [Hs Hall].
  cbn [combine fold_right]. rewrite (IH vals Hs).
  now apply combine_sorted_head.
Qed.

Lemma bin_mean_sorted (times : list Z) (vals : list float) (lo hi : Z) :
  is_sorted times = true ->
  bin_mean times vals lo hi = group_mean (select_bin times vals lo hi).
Proof.
  intros H. unfold bin_mean. cbv zeta.
  now rewrite (sort_by_time_sorted times vals H), select_bin_combine.
Qed.

(** ** Time stamps within range *)

Lemma fold_min_in (d : Z) (l : list Z) :
  fold_right Z.min d l = d \/ In (fold_right Z.min d l) l.
Proof.
  induction l as [|a l IH]; [now left|]. cbn [fold_right In].
  destruct (Z.min_spec a (fold_right Z.min d l)) as [[_ E]|[_ E]]; rewrite E.
  - right. now left.
  - destruct IH as [IH|IH]; [now left|right; now right].
Qed.

Lemma fold_max_in (d : Z) (l : list Z) :
  fold_right Z.max d l = d \/ In (fold_right Z.max d l) l.
Proof.
  induction l as [|a l IH]; [now left|]. cbn [fold_right In].
  destruct (Z.max_spec a (fold_right Z.max d l)) as [[_ E]|[_ E]]; rewrite E.
  - destruct IH as [IH|IH]; [now left|right; now right].
  - right. now left.
Qed.

Lemma earliest_in (time : list Z) : time <> [] -> In (earliest time) time.
Proof.
  destruct time as [|t0 l]; [easy|]. intros _. unfold earliest.
  destruct (fold_min_in t0 (t0 :: l)) as [E|E]; [rewrite E; now left|exact E].
Qed.

Lemma latest_in (time : list Z) : time <> [] -> In (latest time) time.
Proof.
  destruct time as [|t0 l]; [easy|]. intros _. unfold latest.
  destruct (fold_max_in t0 (t0 :: l)) as [E|E]; [rewrite E; now left|exact E].
Qed.

(** Within range, a positive width gives the bins of [bin_edges]. *)
Lemma tick_bins_within (time : list Z) (freq : Z) :
  0 < freq -> within_range time freq ->
  tick_bins time freq = Ok (tick_windows time freq).
Proof.
  intros Hpos [Hf Hall]. unfold tick_bins.
  replace (freq <=? 0) with false by (symmetry; apply Z.leb_gt; lia).
  replace (ts_max <? freq) with false by (symmetry; apply Z.ltb_ge; lia).
  destruct time as [|t0 l] eqn:E; [reflexivity|]. rewrite <- E in *.
  assert (Hne : time <> []) by (rewrite E; discriminate).
  change (fold_right Z.min t0 time) with (fold_right Z.min t0 time).
  replace (fold_right Z.min t0 time) with (earliest time)
    by (rewrite E; reflexivity).
  replace (fold_right Z.max t0 time) with (latest time)
    by (rewrite E; reflexivity).
  cbv zeta.
  pose proof (proj1 (Forall_forall _ _) Hall _ (earliest_in time Hne)) as [He _].
  pose proof (proj1 (Forall_forall _ _) Hall _ (latest_in time Hne)) as [_ Hl].
  unfold day_start.
  pose proof (Z.mod_pos_bound (earliest time) nanos_per_day ltac:(easy)) as Hd.
  set (o := earliest time - earliest time mod nanos_per_day) in *.
  pose proof (Z.mod_pos_bound (latest time - o) freq Hpos) as Hm.
  replace (o <? ts_min) with false by (symmetry; apply Z.ltb_ge; lia).
  assert (Hr : (if 0 <? (latest time - o) mod freq
                then latest time + (freq - (latest time - o) mod freq)
                else latest time + freq) <= ts_max)
    by (destruct (0 <? (latest time - o) mod freq); lia).
  apply Z.ltb_ge in Hr. rewrite Hr. reflexivity.
Qed.

(** When [tick_bins] gives bins, they are those of [bin_edges] and the width
    is positive. *)
Lemma tick_bins_ok (time : list Z) (freq : Z) (bins : list bin) :
  tick_bins time freq = Ok bins -> 0 < freq /\ bins = tick_windows time freq.
Proof.
  unfold tick_bins. destruct (freq <=? 0) eqn:E; [discriminate|].
  apply Z.leb_gt in E. destruct (ts_max <? freq); [discriminate|].
  destruct time as [|t0 l]; [intros [= <-]; now split|].
  cbv zeta.
  match goal with
  | |- (if ?c then _ else _) = _ -> _ => destruct c; [discriminate|]
  end.
  intros [= <-]. now split.
Qed.

Lemma tick_windows_labels (time : list Z) (freq : Z) :
  map bin_label (tick_windows time freq) = bin_edges time freq.
Proof.
  unfold tick_windows. rewrite map_map. cbn [bin_label fst]. apply map_id.
Qed.

(** ** What a call computes

    The frames a call leaves in the store, and the rows it returns, written
    out in terms of the inputs. *)

Lemma rows_of_take (c1 c2 : list cell) (idx : list Z) :
  map (fun i => [nth i (take c1 idx) NA; nth i (take c2 idx) NA])
      (seq 0 (List.length (take c1 idx)))
  = map (fun j => [if j <? 0 then NA else nth (Z.to_nat j) c1 NA;
                   if j <? 0 then NA else nth (Z.to_nat j) c2 NA]) idx.
Proof.
  unfold take. rewrite length_map.
  induction idx as [|j idx IH]; [reflexivity|].
  cbn [List.length seq map nth]. f_equal.
  rewrite <- seq_shift, map_map. exact IH.
Qed.

(** For a fixed width, [tmp] is the frame of the epochs. *)
Lemma window_frame_tick (time : list Z) (acc : list accel) (m sb : float) (f : Z) :
  window_frame time acc m sb (tick_windows time f) = epoch_frame time acc m sb f.
Proof.
  unfold window_frame, epoch_frame, window_means, bin_means, tick_windows,
    window_mean, epoch_mean.
  rewrite !map_map. reflexivity.
Qed.

(** For a fixed width, the rows the join selects are the labels of each
    sample's own epoch. *)
Lemma window_rows_tick (time : list Z) (acc : list accel) (m sb : float) (f : Z) :
  0 < f -> is_sorted time = true ->
  window_rows time acc m sb (tick_windows time f)
  = map (sample_levels time acc m sb f) time.
Proof.
  intros Hf Hs. unfold window_rows. rewrite tick_windows_labels.
  rewrite asof_join_backward_spec by (try apply bin_edges_sorted; assumption).
  rewrite map_map. apply map_ext_in. intros t Hin.
  destruct (bin_of_sample time f t Hf Hin) as [j [Hc Hn]].
  rewrite Hc. unfold row_at.
  replace (Z.of_nat (S j) - 1 <? 0) with false by (symmetry; apply Z.ltb_ge; lia).
  replace (Z.to_nat (Z.of_nat (S j) - 1)) with j by lia.
  unfold sample_levels, tick_windows. rewrite !map_map.
  rewrite !(nth_error_nth _ _ _ (map_nth_error _ _ _ Hn)). reflexivity.
Qed.

(** ** Running the body *)

Section Execution.
Local Arguments calculate_vector_magnitude : simpl never.
Local Arguments window_means : simpl never.
Local Arguments asof_join_backward : simpl never.
Local Arguments take : simpl never.
Local Arguments is_sorted : simpl never.
Local Arguments Nat.add : simpl never.

Ltac names_tac :=
  cbn [table_of own map fst snd lookup pick set_index filter negb rbind
       String.eqb Ascii.eqb Bool.eqb reset_index index columns index_name
       List.length app list_set names mem orb andb String.append].

Ltac length_tac :=
  cbn; unfold calculate_vector_magnitude; rewrite ?length_map; congruence.

Ltac set_new :=
  unfold bind at 1;
  erewrite loc_setitem_new; [|reflexivity|reflexivity|length_tac];
  names_tac.

(** Lines 49 to 53: the frame [data] with its columns [Time] and [EMNO]. *)
Ltac run_build :=
  unfold calculate_pa_levels_body, lift;
  match goal with
  | |- context [State _ _ ?h] => rewrite <- (app_nil_r h) at 1
  end;
  unfold bind at 1; unfold DataFrame_of_acceleration; rewrite alloc_app;
  names_tac;
  unfold bind at 1; cbn [np_time].

Ltac get_col :=
  unfold bind at 1; erewrite getitem_app; [|reflexivity]; names_tac.

(** Line 63 up to the checks of [merge_asof]. *)
Ltac run_join :=
  unfold bind at 1; erewrite read_frame_app; [|reflexivity];
  unfold bind at 1; erewrite getitems_app; [|reflexivity]; names_tac;
  unfold bind at 1; erewrite read_frame_app; [|reflexivity];
  unfold bind at 1; names_tac;
  unfold merge_asof; names_tac.

Ltac run_columns :=
  set_new; unfold bind at 1; cbn [np_acceleration]; set_new.

Lemma body_length_mismatch (h : list DataFrame) (time : list Z)
    (acc : list accel) (m sb : float) (iv : option string) :
  List.length time <> List.length acc ->
  exists l, calculate_pa_levels_body m sb iv (State time acc h)
            = (Raise ValueError, State time acc (h ++ l)).
Proof.
  intros Hlen. eexists. run_build.
  unfold bind at 1. erewrite loc_setitem_length; [reflexivity|reflexivity|].
  cbn. now rewrite !length_map.
Qed.

(** Without an interval [tmp] is [data] itself: the label columns are added
    to [data], the join renames them on both sides, and the final selection
    finds no column [MVPA]. *)
Lemma body_alias (h : list DataFrame) (time : list Z) (acc : list accel)
    (m sb : float) (iv : option string) :
  List.length time = List.length acc ->
  truthy iv = false ->
  exists l, calculate_pa_levels_body m sb iv (State time acc h)
            = (Raise (if is_sorted time then KeyError else ValueError),
               State time acc (h ++ l)).
Proof.
  intros Hlen Htr. destruct (is_sorted time) eqn:Hs; eexists.
  all: run_build; run_columns; rewrite Htr; unfold bind at 1; unfold ret at 1.
  all: get_col; unfold bind at 1; unfold ge_scalar;
    rewrite (rmap_map_ok _ Flt (fun x => Bl (m <=? x)%float)) by reflexivity;
    set_new.
  all: get_col; unfold bind at 1; unfold le_scalar;
    rewrite (rmap_map_ok _ Flt (fun x => Bl (x <=? sb)%float)) by reflexivity;
    set_new.
  all: run_join; rewrite !rmap_cell_time_Tm; names_tac; rewrite Hs; names_tac.
  2: reflexivity.
  unfold bind at 1. rewrite alloc_app. names_tac.
  unfold bind at 1. erewrite getitems_app; [|reflexivity]. names_tac.
  reflexivity.
Qed.

(** Lines 55 and 56 for an interval that is set. *)
Ltac run_resample Htr :=
  rewrite Htr; unfold bind at 1; unfold bind at 1; unfold bind at 1;
  erewrite read_frame_app; [|reflexivity]; names_tac.

Lemma body_bad_interval (h : list DataFrame) (time : list Z) (acc : list accel)
    (m sb : float) (iv : option string) (e : exn) :
  List.length time = List.length acc ->
  truthy iv = true -> interval_freq iv = Raise e ->
  exists l, calculate_pa_levels_body m sb iv (State time acc h)
            = (Raise e, State time acc (h ++ l)).
Proof.
  intros Hlen Htr Hf. eexists. run_build. run_columns. run_resample Htr.
  rewrite Hf. reflexivity.
Qed.

(** The frequency gives no bins: the exception of the resampling is that of
    the call. *)
Lemma body_no_bins (h : list DataFrame) (time : list Z) (acc : list accel)
    (m sb : float) (iv : option string) (o : offset) (e : exn) :
  List.length time = List.length acc ->
  truthy iv = true -> interval_freq iv = Ok o ->
  offset_bins o time = Raise e ->
  exists l, calculate_pa_levels_body m sb iv (State time acc h)
            = (Raise e, State time acc (h ++ l)).
Proof.
  intros Hlen Htr Hf Hb. eexists. run_build. run_columns. run_resample Htr.
  rewrite Hf. names_tac. unfold resample_mean. names_tac.
  rewrite rmap_cell_time_Tm. names_tac. rewrite Hb. reflexivity.
Qed.

Ltac run_windows Htr Hf Hb :=
  run_resample Htr; rewrite Hf; names_tac; unfold resample_mean; names_tac;
  rewrite rmap_cell_time_Tm; names_tac; rewrite Hb; names_tac;
  cbn [rmap fst snd]; rewrite !rmap_cell_float_axis, rmap_cell_float_Flt;
  names_tac; rewrite alloc_app; names_tac;
  get_col; unfold bind at 1; rewrite ge_scalar_means; set_new;
  get_col; unfold bind at 1; rewrite le_scalar_means; set_new;
  run_join; rewrite rmap_cell_time_Tm, rmap_cell_time_labels; names_tac.

(** The frequency gives bins: the frame [data], the frame [tmp] of the
    bins, and the rows of the join, unless [merge_asof] refuses the keys. *)
Lemma body_windows (h : list DataFrame) (time : list Z) (acc : list accel)
    (m sb : float) (iv : option string) (o : offset) (bins : list bin) :
  List.length time = List.length acc ->
  truthy iv = true -> interval_freq iv = Ok o ->
  offset_bins o time = Ok bins ->
  exists l, calculate_pa_levels_body m sb iv (State time acc h)
            = (if is_sorted time && is_sorted (map bin_label bins)
               then Ok (window_rows time acc m sb bins)
               else Raise ValueError,
               State time acc
                 (h ++ data_frame time acc :: window_frame time acc m sb bins :: l)).
Proof.
  intros Hlen Htr Hf Hb.
  destruct (is_sorted time) eqn:Hs;
    [destruct (is_sorted (map bin_label bins)) eqn:Hs'|]; eexists.
  all: run_build; run_columns; run_windows Htr Hf Hb; rewrite Hs; names_tac.
  3: reflexivity.
  all: rewrite Hs'; names_tac.
  2: reflexivity.
  unfold bind at 1. rewrite alloc_app. names_tac.
  unfold bind at 1. erewrite getitems_app; [|reflexivity]. names_tac.
  erewrite values_app; [|reflexivity]. names_tac. cbn [nrows].
  rewrite rows_of_take. reflexivity.
Qed.
End Execution.

(** ** Calls that return, calls that raise *)

(** The outcome of a call, case by case. *)
Lemma calculate_pa_levels_eq (time : list Z) (acc : list accel) (m sb : float)
    (iv : option string) :
  calculate_pa_levels time acc m sb iv
  = if negb (Nat.eqb (List.length time) (List.length acc)) then Raise ValueError
    else if negb (truthy iv)
         then Raise (if is_sorted time then KeyError else ValueError)
         else match interval_freq iv with
              | Raise e => Raise e
              | Ok o =>
                  match offset_bins o time with
                  | Raise e => Raise e
                  | Ok bins =>
                      if is_sorted time && is_sorted (map bin_label bins)
                      then Ok (window_rows time acc m sb bins)
                      else Raise ValueError
                  end
              end.
Proof.
  unfold calculate_pa_levels, run_pa_levels.
  destruct (Nat.eq_dec (List.length time) (List.length acc)) as [Hlen|Hlen].
  2:{ destruct (body_length_mismatch [] time acc m sb iv Hlen) as [l E].
      rewrite E. apply Nat.eqb_neq in Hlen. now rewrite Hlen. }
  rewrite (proj2 (Nat.eqb_eq _ _) Hlen). cbn [negb].
  destruct (truthy iv) eqn:Htr; cbn [negb].
  2:{ destruct (body_alias [] time acc m sb iv Hlen Htr) as [l E].
      now rewrite E. }
  destruct (interval_freq iv) as [o|e] eqn:Hf.
  2:{ destruct (body_bad_interval [] time acc m sb iv e Hlen Htr Hf) as [l E].
      now rewrite E. }
  destruct (offset_bins o time) as [bins|e] eqn:Hb.
  - destruct (body_windows [] time acc m sb iv o bins Hlen Htr Hf Hb) as [l E].
    now rewrite E.
  - destruct (body_no_bins [] time acc m sb iv o e Hlen Htr Hf Hb) as [l E].
    now rewrite E.
Qed.

(** A call returns exactly when the lengths agree, the interval is set, the
    resampling gives bins, and both key columns of the join are sorted. *)
Lemma returns_inv (time : list Z) (acc : list accel) (m sb : float)
    (iv : option string) (rows : list (list cell)) :
  calculate_pa_levels time acc m sb iv = Ok rows ->
  List.length time = List.length acc /\ truthy iv = true /\ is_sorted time = true
  /\ exists o bins,
       interval_freq iv = Ok o /\ offset_bins o time = Ok bins
       /\ is_sorted (map bin_label bins) = true
       /\ rows = window_rows time acc m sb bins.
Proof.
  rewrite calculate_pa_levels_eq.
  destruct (Nat.eqb (List.length time) (List.length acc)) eqn:Hlen;
    [|discriminate].
  apply Nat.eqb_eq in Hlen. cbn [negb].
  destruct (truthy iv); [|discriminate]. cbn [negb].
  destruct (interval_freq iv) as [o|e]; [|discriminate].
  destruct (offset_bins o time) as [bins|e] eqn:Hb; [|discriminate].
  destruct (is_sorted time); [|discriminate].
  destruct (is_sorted (map bin_label bins)) eqn:Hs; [|discriminate].
  cbn [andb]. intros [= <-]. repeat split; try assumption.
  exists o, bins. now repeat split.
Qed.

(** The frame [tmp] of a call whose resampling gives bins. *)
Lemma tmp_frame_windows (time : list Z) (acc : list accel) (m sb : float)
    (iv : option string) (o : offset) (bins : list bin) :
  List.length time = List.length acc ->
  truthy iv = true -> interval_freq iv = Ok o ->
  offset_bins o time = Ok bins ->
  tmp_frame (snd (run_pa_levels time acc m sb iv))
  = Some (window_frame time acc m sb bins).
Proof.
  intros Hlen Htr Hf Hb. unfold run_pa_levels, tmp_frame.
  destruct (body_windows [] time acc m sb iv o bins Hlen Htr Hf Hb) as [l E].
  now rewrite E.
Qed.

(** A call with a fixed width that returns. *)
Lemma returns_tick_inv (time : list Z) (acc : list accel) (m sb : float)
    (iv : option string) (rows : list (list cell)) (f : Z) :
  calculate_pa_levels time acc m sb iv = Ok rows ->
  interval_freq iv = Ok (Tick f) ->
  List.length time = List.length acc /\ truthy iv = true /\ is_sorted time = true
  /\ 0 < f
  /\ rows = map (sample_levels time acc m sb f) time
  /\ tmp_frame (snd (run_pa_levels time acc m sb iv))
     = Some (epoch_frame time acc m sb f).
Proof.
  intros H Hf.
  destruct (returns_inv time acc m sb iv rows H)
    as [Hlen [Htr [Hs [o [bins [Hf' [Hb [_ ->]]]]]]]].
  rewrite Hf in Hf'. injection Hf' as <-. cbn [offset_bins] in Hb.
  destruct (tick_bins_ok time f bins Hb) as [Hpos ->].
  repeat split; try assumption.
  - now apply window_rows_tick.
  - rewrite <- window_frame_tick.
    now apply (tmp_frame_windows time acc m sb iv (Tick f)).
Qed.

Lemma returns_ok (time : list Z) (acc : list accel) (m sb : float)
    (iv : option string) (f : Z) :
  List.length time = List.length acc ->
  truthy iv = true -> interval_freq iv = Ok (Tick f) -> 0 < f ->
  within_range time f ->
  is_sorted time = true ->
  calculate_pa_levels time acc m sb iv = Ok (map (sample_levels time acc m sb f) time).
Proof.
  intros Hlen Htr Hf Hpos Hr Hs. rewrite calculate_pa_levels_eq.
  rewrite (proj2 (Nat.eqb_eq _ _) Hlen), Htr, Hf. cbn [negb offset_bins].
  rewrite (tick_bins_within time f Hpos Hr), Hs, tick_windows_labels.
  rewrite (bin_edges_sorted time f Hpos). cbn [andb].
  now rewrite window_rows_tick.
Qed.


(** The result of the body does not depend on the frames already in the
    store, and the body only adds frames. *)
Lemma body_frame (st : state) (m sb : float) (iv : option string) :
  exists l,
    calculate_pa_levels_body m sb iv st
    = (calculate_pa_levels (np_time st) (np_acceleration st) m sb iv,
       State (np_time st) (np_acceleration st) (frames st ++ l)).
Proof.
  destruct st as [time acc h]. cbn [np_time np_acceleration frames].
  rewrite calculate_pa_levels_eq.
  destruct (Nat.eq_dec (List.length time) (List.length acc)) as [Hlen|Hlen].
  2:{ destruct (body_length_mismatch h time acc m sb iv Hlen) as [l E].
      exists l. rewrite E. apply Nat.eqb_neq in Hlen. now rewrite Hlen. }
  rewrite (proj2 (Nat.eqb_eq _ _) Hlen). cbn [negb].
  destruct (truthy iv) eqn:Htr; cbn [negb].
  2:{ destruct (body_alias h time acc m sb iv Hlen Htr) as [l E].
      exists l. now rewrite E. }
  destruct (interval_freq iv) as [o|e] eqn:Hf.
  2:{ destruct (body_bad_interval h time acc m sb iv e Hlen Htr Hf) as [l E].
      exists l. now rewrite E. }
  destruct (offset_bins o time) as [bins|e] eqn:Hb.
  - destruct (body_windows h time acc m sb iv o bins Hlen Htr Hf Hb) as [l E].
    eexists. rewrite E. reflexivity.
  - destruct (body_no_bins h time acc m sb iv o e Hlen Htr Hf Hb) as [l E].
    exists l. now rewrite E.
Qed.

(** ** Comparisons of binary64 values *)

Lemma SFcompare_Eq_sym (a b : spec_float) : SFcompare a b = Some Eq -> SFcompare b a = Some Eq.
Proof.
  destruct a as [sa|sa| |sa ma ea], b as [sb|sb| |sb mb eb]; cbn;
    try discriminate; try reflexivity;
    try (destruct sa, sb; (discriminate || reflexivity)); try (destruct sa; discriminate); try (destruct sb; discriminate).
  destruct sa, sb; try discriminate.
  all: destruct (Z.compare_spec ea eb); try discriminate; subst; rewrite Z.compare_refl.
  all: change (Pcompare ma mb Eq) with (Pos.compare ma mb); change (Pcompare mb ma Eq) with (Pos.compare mb ma).
  all: destruct (Pos.compare_spec ma mb); try discriminate; subst; rewrite Pos.compare_refl; reflexivity.
Qed.

Lemma float_eqb_leb (x y : float) :
  (x =? y)%float = true -> (x <=? y)%float = true /\ (y <=? x)%float = true.
Proof.
  rewrite FloatAxioms.eqb_spec, !FloatAxioms.leb_spec. unfold SFeqb, SFleb.
  destruct (SFcompare (Prim2SF x) (Prim2SF y)) as [[]|] eqn:E; try discriminate.
  intros _. now rewrite (SFcompare_Eq_sym _ _ E).
Qed.

Lemma SFcompare_key (a b : spec_float) :
  SFcompare a b = match key a, key b with Some p, Some q => Some (lex p q) | _, _ => None end.
Proof.
  destruct a as [sa|sa| |sa ma ea], b as [sb|sb| |sb mb eb]; cbn;
    try reflexivity; try (destruct sa; reflexivity); try (destruct sb; reflexivity);
    try (destruct sa, sb; reflexivity).
  destruct sa, sb; cbn [key lex]; try reflexivity.
  change (-1 ?= -1) with Eq. cbv iota.
  rewrite Z.compare_opp, (Z.compare_antisym ea eb).
  destruct (ea ?= eb); reflexivity.
Qed.

Lemma lex_le_trans (p q r : Z * Z * Z) : lex p q <> Gt -> lex q r <> Gt -> lex p r <> Gt.
Proof.
  destruct p as [[a1 b1] c1], q as [[a2 b2] c2], r as [[a3 b3] c3]. unfold lex.
  destruct (Z.compare_spec a1 a2), (Z.compare_spec a2 a3), (Z.compare_spec a1 a3); try lia; try congruence;
  destruct (Z.compare_spec b1 b2), (Z.compare_spec b2 b3), (Z.compare_spec b1 b3); try lia; try congruence;
  destruct (Z.compare_spec c1 c2), (Z.compare_spec c2 c3), (Z.compare_spec c1 c3); try lia; try congruence.
Qed.

Lemma lex_antisym (p q : Z * Z * Z) : lex p q = CompOpp (lex q p).
Proof.
  destruct p as [[a1 b1] c1], q as [[a2 b2] c2]. unfold lex.
  rewrite (Z.compare_antisym a2 a1), (Z.compare_antisym b2 b1), (Z.compare_antisym c2 c1).
  destruct (a2 ?= a1), (b2 ?= b1), (c2 ?= c1); reflexivity.
Qed.

Lemma float_between (m x s : float) :
  (m <=? x)%float = true -> (x <=? s)%float = true -> (s <? m)%float = false.
Proof.
  rewrite !FloatAxioms.leb_spec, FloatAxioms.ltb_spec. unfold SFleb, SFltb.
  rewrite !SFcompare_key.
  destruct (key (Prim2SF m)) as [km|], (key (Prim2SF x)) as [kx|], (key (Prim2SF s)) as [ks|];
    try discriminate; try reflexivity.
  intros H1 H2.
  assert (L : lex km ks <> Gt).
  { apply (lex_le_trans km kx ks); [destruct (lex km kx)|destruct (lex kx ks)]; congruence. }
  rewrite (lex_antisym ks km). destruct (lex km ks); cbn; congruence.
Qed.

Lemma lex_refl (p : Z * Z * Z) : lex p p = Eq.
Proof. destruct p as [[a b] c]. unfold lex. now rewrite !Z.compare_refl. Qed.

(** A value that differs from itself is NaN; it is on neither side of any
    cutpoint. *)
Lemma float_nan_leb (x y : float) :
  (x =? x)%float = false -> (y <=? x)%float = false /\ (x <=? y)%float = false.
Proof.
  rewrite FloatAxioms.eqb_spec, !FloatAxioms.leb_spec. unfold SFeqb, SFleb.
  rewrite !SFcompare_key.
  destruct (key (Prim2SF x)) as [p|].
  - rewrite lex_refl. discriminate.
  - intros _. now destruct (key (Prim2SF y)).
Qed.

Lemma float_leb_trans (a b c : float) :
  (a <=? b)%float = true -> (b <=? c)%float = true -> (a <=? c)%float = true.
Proof.
  rewrite !FloatAxioms.leb_spec. unfold SFleb. rewrite !SFcompare_key.
  destruct (key (Prim2SF a)) as [ka|], (key (Prim2SF b)) as [kb|],
           (key (Prim2SF c)) as [kc|]; try discriminate.
  intros H1 H2.
  assert (L : lex ka kc <> Gt).
  { apply (lex_le_trans ka kb kc); [destruct (lex ka kb)|destruct (lex kb kc)];
      congruence. }
  destruct (lex ka kc); congruence.
Qed.

(** ** The position of a key among sorted keys *)

Lemma count_le_cases (keys : list Z) (t : Z) :
  is_sorted keys = true ->
  (count_le keys t = O /\ Forall (fun r => t < r) keys)
  \/ (exists j r,
        count_le keys t = S j /\ nth_error keys j = Some r /\ r <= t
        /\ Forall (fun r' => t < r') (skipn (S j) keys)).
Proof.
  intros Hr. destruct (sorted_split t keys Hr) as [later [Heq Hlater]].
  unfold count_le. set (before := filter (fun r => r <=? t) keys) in *.
  destruct (List.length before) as [|n] eqn:En.
  - left. split; [reflexivity|].
    apply length_zero_iff_nil in En. rewrite Heq, En. exact Hlater.
  - right. destruct (nth_error before n) as [r|] eqn:E.
    + exists n, r. split; [reflexivity|]. split; [|split].
      * rewrite Heq. rewrite nth_error_app1 by lia. exact E.
      * apply nth_error_In in E. unfold before in E.
        apply filter_In in E as [_ E]. now apply Z.leb_le.
      * rewrite Heq. rewrite skipn_app.
        rewrite skipn_all2 by lia. rewrite En, Nat.sub_diag. exact Hlater.
    + apply nth_error_None in E. lia.
Qed.

Lemma sorted_nth_mono (l : list Z) (i k : nat) (x y : Z) :
  is_sorted l = true -> (i <= k)%nat ->
  nth_error l i = Some x -> nth_error l k = Some y -> x <= y.
Proof.
  revert i k. induction l as [|a l IH]; intros i k Hs Hik Hi Hk.
  - destruct i; discriminate.
  - destruct (is_sorted_cons a l Hs) as [Hs' Hall].
    destruct i as [|i], k as [|k]; cbn [nth_error] in Hi, Hk.
    + injection Hi as <-. injection Hk as <-. lia.
    + injection Hi as <-. apply nth_error_In in Hk.
      exact (proj1 (Forall_forall _ _) Hall y Hk).
    + lia.
    + apply (IH i k); [assumption|lia|assumption|assumption].
Qed.

(** Among sorted keys, a key that is not after [t] is not after the key at
    the position the scan stores for [t]. *)
Lemma sorted_latest (keys : list Z) (t r r' : Z) (j : nat) :
  is_sorted keys = true ->
  nth_error keys j = Some r ->
  Forall (fun x => t < x) (skipn (S j) keys) ->
  In r' keys -> r' <= t -> r' <= r.
Proof.
  intros Hs Hj Hlater Hin Hle.
  apply In_nth_error in Hin as [i Hi].
  destruct (Nat.le_gt_cases i j) as [Hij|Hij].
  - exact (sorted_nth_mono keys i j r' r Hs Hij Hi Hj).
  - assert (Hin : In r' (skipn (S j) keys)).
    { apply (nth_error_In _ (i - S j)). rewrite nth_error_skipn.
      now replace (S j + (i - S j))%nat with i by lia. }
    pose proof (proj1 (Forall_forall _ _) Hlater r' Hin) as Hlt.
    cbn beta in Hlt. lia.
Qed.

(** The cells of [tmp], row by row. *)
Lemma window_frame_rows (time : list Z) (acc : list accel) (m sb : float)
    (bins : list bin) (emno mvpa sbc : list cell) (j : nat) :
  lookup "EMNO" (window_frame time acc m sb bins) = Some (Own emno) ->
  lookup "MVPA" (window_frame time acc m sb bins) = Some (Own mvpa) ->
  lookup "SB" (window_frame time acc m sb bins) = Some (Own sbc) ->
  (j < List.length emno)%nat ->
  exists x,
    nth_error emno j = Some (Flt x)
    /\ nth_error mvpa j = Some (Bl (m <=? x)%float)
    /\ nth_error sbc j = Some (Bl (x <=? sb)%float).
Proof.
  cbn [window_frame lookup String.eqb Ascii.eqb Bool.eqb].
  intros [= <-] [= <-] [= <-]. unfold window_means. rewrite length_map. intros Hj.
  destruct (nth_error bins j) as [b|] eqn:E.
  - exists (window_mean time acc b).
    rewrite !(map_nth_error _ _ _ E). now repeat split.
  - apply nth_error_None in E. lia.
Qed.

(** The row of a sample, by the position of its time stamp among the labels
    of the bins. *)
Lemma window_rows_nth (time : list Z) (acc : list accel) (m sb : float)
    (bins : list bin) (i : nat) (t : Z) :
  is_sorted time = true -> is_sorted (map bin_label bins) = true ->
  nth_error time i = Some t ->
  nth_error (window_rows time acc m sb bins) i
  = Some (row_at time acc m sb bins
            (Z.of_nat (count_le (map bin_label bins) t) - 1)).
Proof.
  intros Hs Hb Hi. unfold window_rows.
  rewrite asof_join_backward_spec by assumption.
  rewrite map_map. now rewrite (map_nth_error _ _ _ Hi).
Qed.

(** A row holds the two labels of a bin, or two missing values. *)
Lemma row_at_cases (time : list Z) (acc : list accel) (m sb : float)
    (bins : list bin) (t : Z) :
  is_sorted (map bin_label bins) = true ->
  let row := row_at time acc m sb bins
               (Z.of_nat (count_le (map bin_label bins) t) - 1) in
  (Forall (fun b => t < bin_label b) bins /\ row = [NA; NA])
  \/ (exists j b,
        nth_error bins j = Some b /\ bin_label b <= t
        /\ Forall (fun b' => t < bin_label b') (skipn (S j) bins)
        /\ (forall b', In b' bins -> bin_label b' <= t ->
                       bin_label b' <= bin_label b)
        /\ row = [Bl (m <=? window_mean time acc b)%float;
                  Bl (window_mean time acc b <=? sb)%float]).
Proof.
  intros Hb row. subst row.
  destruct (count_le_cases (map bin_label bins) t Hb)
    as [[Hc Hall]|[j [r [Hc [Hn [Hr Hall]]]]]]; rewrite Hc.
  - left. split; [|reflexivity]. rewrite Forall_map in Hall. exact Hall.
  - right. rewrite nth_error_map in Hn.
    destruct (nth_error bins j) as [b|] eqn:E; [|discriminate].
    cbn [option_map] in Hn. injection Hn as <-.
    exists j, b. split; [exact E|]. split; [assumption|]. split; [|split].
    + rewrite skipn_map in Hall. rewrite Forall_map in Hall. exact Hall.
    + intros b' Hin Hle.
      apply (sorted_latest (map bin_label bins) t (bin_label b) (bin_label b') j);
        try assumption.
      * now rewrite nth_error_map, E.
      * now apply in_map.
    + unfold row_at.
      replace (Z.of_nat (S j) - 1 <? 0) with false
        by (symmetry; apply Z.ltb_ge; lia).
      replace (Z.to_nat (Z.of_nat (S j) - 1)) with j by lia.
      now rewrite !(nth_error_nth _ _ _ (map_nth_error _ _ _ E)).
Qed.

(** * The claims *)

(** C1 (the code departs from this claim).  Without an interval, i.e. with
    [interval] equal to [None] or to the empty string, no call returns: every
    call raises.  On one well-formed sample the exception is [KeyError],
    raised by the final selection of the columns [MVPA] and [SB]. *)
Theorem no_interval_raises :
  forall (time : list Z) (acc : list accel) (m sb : float),
    (exists e, calculate_pa_levels time acc m sb None = Raise e)
    /\ (exists e, calculate_pa_levels time acc m sb (Some "") = Raise e)
    /\ calculate_pa_levels [0] [(1.1, 0, 0)%float]
         mvpa_cutpoint_default sb_cutpoint_default None = Raise KeyError.
Proof.
  intros time acc m sb.
  assert (H : forall iv, truthy iv = false ->
                         exists e, calculate_pa_levels time acc m sb iv = Raise e).
  { intros iv Htr. rewrite calculate_pa_levels_eq, Htr. cbn [negb].
    destruct (negb (Nat.eqb (List.length time) (List.length acc)));
      now eexists. }
  split; [|split].
  - now apply H.
  - now apply H.
  - rewrite calculate_pa_levels_eq. reflexivity.
Qed.








(** C5.  When the time stamps are sorted and the call returns, row i holds
    the labels of the latest window that is not after sample i: a window of
    [tmp] whose time stamp is at most the sample's, while no window of [tmp]
    with a time stamp at most the sample's has a later one; the row is (MVPA,
    SB) of that window.  A sample that is before every window of [tmp] gets
    no match: its row holds two missing values.  That case occurs: with the
    weekly interval "W" and one sample on Thursday 1970-01-01, the only
    window is stamped on the Sunday after, and the row is missing. *)
Theorem rows_are_asof_labels :
  (forall (time : list Z) (acc : list accel) (m sb : float)
          (iv : option string) (rows : list (list cell)),
     is_sorted time = true ->
     calculate_pa_levels time acc m sb iv = Ok rows ->
     exists bins,
       tmp_frame (snd (run_pa_levels time acc m sb iv))
       = Some (window_frame time acc m sb bins)
       /\ forall (i : nat) (t : Z),
            nth_error time i = Some t ->
            (exists j b,
               nth_error bins j = Some b /\ bin_label b <= t
               /\ (forall b', In b' bins -> bin_label b' <= t ->
                              bin_label b' <= bin_label b)
               /\ nth_error rows i
                  = Some [Bl (m <=? window_mean time acc b)%float;
                          Bl (window_mean time acc b <=? sb)%float])
            \/ ((forall b', In b' bins -> t < bin_label b')
                /\ nth_error rows i = Some [NA; NA]))
  /\ (exists tmp,
        tmp_frame (snd (run_pa_levels [0] [(1.1, 0, 0)%float]
                          mvpa_cutpoint_default sb_cutpoint_default (Some "W")))
        = Some tmp
        /\ lookup "Time" tmp = Some (Own [Tm (3 * nanos_per_day)])
        /\ calculate_pa_levels [0] [(1.1, 0, 0)%float]
             mvpa_cutpoint_default sb_cutpoint_default (Some "W")
           = Ok [[NA; NA]]).
Proof.
  split.
  - intros time acc m sb iv rows _ H.
    destruct (returns_inv time acc m sb iv rows H)
      as [Hlen [Htr [Hs [o [bins [Hf [Hb [Hsb Hrows]]]]]]]].
    exists bins. split; [now apply (tmp_frame_windows time acc m sb iv o)|].
    intros i t Hi. rewrite Hrows, (window_rows_nth _ _ _ _ _ _ _ Hs Hsb Hi).
    destruct (row_at_cases time acc m sb bins t Hsb)
      as [[Hall E]|[j [b [Hj [Hle [_ [Hlat E]]]]]]]; rewrite E.
    + right. split; [|reflexivity]. now apply Forall_forall.
    + left. exists j, b. now repeat split.
  - eexists. split; [vm_compute; reflexivity|].
    split; vm_compute; reflexivity.
Qed.

(** C6.  Both comparisons are inclusive.  In the frame [tmp] of a call that
    returns, a window whose mean ENMO equals [mvpa_cutpoint] has MVPA = true,
    and a window whose mean ENMO equals [sb_cutpoint] has SB = true. *)
Theorem cutpoints_inclusive :
  forall (time : list Z) (acc : list accel) (m sb : float)
         (iv : option string) (rows : list (list cell))
         (tmp : DataFrame) (emno mvpa sbc : list cell) (j : nat) (x : float),
    calculate_pa_levels time acc m sb iv = Ok rows ->
    tmp_frame (snd (run_pa_levels time acc m sb iv)) = Some tmp ->
    lookup "EMNO" tmp = Some (Own emno) ->
    lookup "MVPA" tmp = Some (Own mvpa) ->
    lookup "SB" tmp = Some (Own sbc) ->
    nth_error emno j = Some (Flt x) ->
    ((x =? m)%float = true -> nth_error mvpa j = Some (Bl true))
    /\ ((x =? sb)%float = true -> nth_error sbc j = Some (Bl true)).
Proof.
  intros time acc m sb iv rows tmp emno mvpa sbc j x H Htmp He Hm Hsb Hj.
  destruct (returns_inv time acc m sb iv rows H)
    as [Hlen [Htr [Hs [o [bins [Hf [Hb _]]]]]]].
  rewrite (tmp_frame_windows time acc m sb iv o bins Hlen Htr Hf Hb) in Htmp.
  injection Htmp as <-.
  assert (Hlt : (j < List.length emno)%nat)
    by (apply nth_error_Some; congruence).
  destruct (window_frame_rows time acc m sb bins emno mvpa sbc j He Hm Hsb Hlt)
    as [x' [Hx [Hmv Hsv]]].
  rewrite Hx in Hj. injection Hj as ->.
  split; intros Heq; apply float_eqb_leb in Heq as [H1 H2].
  - now rewrite Hmv, H2.
  - now rewrite Hsv, H1.
Qed.

(** C7.  When [mvpa_cutpoint] is above [sb_cutpoint], no window of [tmp] and
    no row of the result has both labels true.  Nothing enforces that order
    of the cutpoints: a call with [mvpa_cutpoint] at most [sb_cutpoint]
    returns as well, and a row may then have both labels true. *)
Theorem labels_exclusive :
  (forall (time : list Z) (acc : list accel) (m sb : float)
          (iv : option string) (rows : list (list cell)),
     (sb <? m)%float = true ->
     calculate_pa_levels time acc m sb iv = Ok rows ->
     Forall (fun row => row <> [Bl true; Bl true]) rows
     /\ forall (tmp : DataFrame) (mvpa sbc : list cell) (j : nat) (a b : bool),
          tmp_frame (snd (run_pa_levels time acc m sb iv)) = Some tmp ->
          lookup "MVPA" tmp = Some (Own mvpa) ->
          lookup "SB" tmp = Some (Own sbc) ->
          nth_error mvpa j = Some (Bl a) -> nth_error sbc j = Some (Bl b) ->
          a && b = false)
  /\ (0.015 <=? 0.069)%float = true
  /\ calculate_pa_levels [0] [(1.05, 0, 0)%float] 0.015%float 0.069%float
       (Some "1s") = Ok [[Bl true; Bl true]]
  /\ calculate_pa_levels [0] half_sample 0.5%float 0.5%float (Some "1s")
     = Ok [[Bl true; Bl true]].
Proof.
  split; [|repeat split; vm_compute; reflexivity].
  intros time acc m sb iv rows Hlt H.
  assert (Hx : forall x, (m <=? x)%float && (x <=? sb)%float = false).
  { intros x. destruct (m <=? x)%float eqn:E1; [|reflexivity].
    destruct (x <=? sb)%float eqn:E2; [|reflexivity].
    pose proof (float_between m x sb E1 E2). congruence. }
  destruct (returns_inv time acc m sb iv rows H)
    as [Hlen [Htr [Hs [o [bins [Hf [Hb [Hsb Hrows]]]]]]]].
  split.
  - apply Forall_forall. intros row Hin. rewrite Hrows in Hin.
    unfold window_rows in Hin.
    rewrite asof_join_backward_spec in Hin by assumption.
    rewrite map_map in Hin. apply in_map_iff in Hin as [t [<- _]].
    destruct (row_at_cases time acc m sb bins t Hsb)
      as [[_ E]|[j [b [_ [_ [_ [_ E]]]]]]]; rewrite E; [discriminate|].
    intros [= E1 E2]. pose proof (Hx (window_mean time acc b)) as Hc.
    rewrite E1, E2 in Hc. discriminate.
  - intros tmp mvpa sbc j a b Htmp Hm Hsb' Ha Hb'.
    rewrite (tmp_frame_windows time acc m sb iv o bins Hlen Htr Hf Hb) in Htmp.
    injection Htmp as <-.
    assert (Hj : (j < List.length
                         (window_means time
                            (calculate_vector_magnitude acc true true) bins))%nat).
    { unfold window_means. rewrite length_map.
      cbn [window_frame lookup String.eqb Ascii.eqb Bool.eqb] in Hm.
      injection Hm as <-.
      assert (Hn : nth_error
                     (map (fun b => Bl (m <=? window_mean time acc b)%float) bins)
                     j <> None) by congruence.
      apply nth_error_Some in Hn. now rewrite length_map in Hn. }
    destruct (window_frame_rows time acc m sb bins _ mvpa sbc j eq_refl Hm Hsb' Hj)
      as [x [_ [Hmv Hsv]]].
    rewrite Hmv in Ha. rewrite Hsv in Hb'.
    injection Ha as <-. injection Hb' as <-. apply Hx.
Qed.

(** C8.  Three samples at 0, 1 and 2 seconds, each of acceleration magnitude
    1.1, with the default cutpoints 0.069 and 0.015 and the interval "1s":
    the call returns three rows, each (MVPA = true, SB = false).  This holds
    for any three triples whose Euclidean norm is computed as 1.1. *)
Theorem three_samples_mvpa :
  forall a0 a1 a2 : accel,
    vector_magnitude false false a0 = 1.1%float ->
    vector_magnitude false false a1 = 1.1%float ->
    vector_magnitude false false a2 = 1.1%float ->
    calculate_pa_levels [0; second; 2 * second] [a0; a1; a2]
      0.069%float 0.015%float (Some "1s")
    = Ok [[Bl true; Bl false]; [Bl true; Bl false]; [Bl true; Bl false]].
Proof.
  intros a0 a1 a2 H0 H1 H2.
  rewrite (returns_ok _ _ _ _ _ second); try reflexivity.
  2:{ unfold within_range, ts_min, ts_max, nanos_per_day, second.
      split; [lia|]. repeat constructor; lia. }
  assert (E : calculate_vector_magnitude [a0; a1; a2] true true
              = [0.10000000000000009; 0.10000000000000009;
                 0.10000000000000009]%float).
  { unfold calculate_vector_magnitude. cbn [map].
    assert (V : forall a, vector_magnitude false false a = 1.1%float ->
                          vector_magnitude true true a = 0.10000000000000009%float).
    { intros [[y x] z]. unfold vector_magnitude. cbn [andb].
      intros ->. vm_compute. reflexivity. }
    now rewrite (V a0 H0), (V a1 H1), (V a2 H2). }
  unfold sample_levels, epoch_mean. rewrite E. vm_compute. reflexivity.
Qed.

(** C9.  A call is a function of its arguments and leaves no trace: run on
    any store, the body returns what [calculate_pa_levels] returns on the
    arrays of that store, whatever frames earlier calls have left there; the
    two input arrays are the same after the call; the frames that were in the
    store are still there, unchanged; and a second call on the store the
    first one leaves returns the same result. *)
Theorem call_is_pure :
  forall (st : state) (m sb : float) (iv : option string),
    let r := calculate_pa_levels_body m sb iv st in
    fst r = calculate_pa_levels (np_time st) (np_acceleration st) m sb iv
    /\ np_time (snd r) = np_time st
    /\ np_acceleration (snd r) = np_acceleration st
    /\ (exists l, frames (snd r) = frames st ++ l)
    /\ fst (calculate_pa_levels_body m sb iv (snd r)) = fst r.
Proof.
  intros st m sb iv r. subst r.
  destruct (body_frame st m sb iv) as [l E]. rewrite E. cbn [fst snd].
  repeat split; try reflexivity.
  - now exists l.
  - destruct (body_frame (State (np_time st) (np_acceleration st) (frames st ++ l))
                         m sb iv) as [l' E'].
    rewrite E'. reflexivity.
Qed.


(** * Further properties of [calculate_pa_levels] *)


(** X1.  Arrays of different lengths: the assignment of the column [Time] on
    line 50 raises [ValueError], whatever the interval and the cutpoints are;
    the interval is not even looked at. *)
Theorem length_mismatch_raises :
  forall (time : list Z) (acc : list accel) (m sb : float) (iv : option string),
    List.length time <> List.length acc ->
    calculate_pa_levels time acc m sb iv = Raise ValueError.
Proof.
  intros time acc m sb iv H. rewrite calculate_pa_levels_eq.
  apply Nat.eqb_neq in H. now rewrite H.
Qed.


(** X3.  Without an interval, on arrays of equal length: the exception is
    [KeyError] (line 65) when the time stamps are sorted and [ValueError]
    (line 63) when they are not. *)
Theorem no_interval_exception :
  forall (time : list Z) (acc : list accel) (m sb : float) (iv : option string),
    List.length time = List.length acc ->
    truthy iv = false ->
    calculate_pa_levels time acc m sb iv
    = Raise (if is_sorted time then KeyError else ValueError).
Proof.
  intros time acc m sb iv Hlen Htr. rewrite calculate_pa_levels_eq.
  now rewrite (proj2 (Nat.eqb_eq _ _) Hlen), Htr.
Qed.


(** X5.  The acceleration enters the result through the ENMO signal only:
    two acceleration arrays with the same vector magnitudes give the same
    outcome, rows or exception.  The means of the columns [Y], [X] and [Z]
    that the resampling computes are never used. *)
Theorem depends_on_enmo_only :
  forall (time : list Z) (acc acc' : list accel) (m sb : float)
         (iv : option string),
    calculate_vector_magnitude acc true true
    = calculate_vector_magnitude acc' true true ->
    calculate_pa_levels time acc m sb iv = calculate_pa_levels time acc' m sb iv.
Proof.
  intros time acc acc' m sb iv H. rewrite !calculate_pa_levels_eq.
  assert (Hlen : List.length acc = List.length acc').
  { apply (f_equal (@List.length float)) in H.
    unfold calculate_vector_magnitude in H. now rewrite !length_map in H. }
  rewrite Hlen. unfold window_rows, row_at, window_mean. now rewrite H.
Qed.

(** X6.  A window without samples is labelled neither MVPA nor SB: in the
    frame [tmp] of a call that returns, a row whose mean ENMO is NaN, as the
    row of every window that holds no sample is, has MVPA = false and
    SB = false, whatever the cutpoints are. *)
Theorem nan_window_unlabelled :
  forall (time : list Z) (acc : list accel) (m sb : float)
         (iv : option string) (rows : list (list cell))
         (tmp : DataFrame) (emno mvpa sbc : list cell) (j : nat) (x : float),
    calculate_pa_levels time acc m sb iv = Ok rows ->
    tmp_frame (snd (run_pa_levels time acc m sb iv)) = Some tmp ->
    lookup "EMNO" tmp = Some (Own emno) ->
    lookup "MVPA" tmp = Some (Own mvpa) ->
    lookup "SB" tmp = Some (Own sbc) ->
    nth_error emno j = Some (Flt x) ->
    (x =? x)%float = false ->
    nth_error mvpa j = Some (Bl false) /\ nth_error sbc j = Some (Bl false).
Proof.
  intros time acc m sb iv rows tmp emno mvpa sbc j x H Htmp He Hm Hsb Hj Hnan.
  destruct (returns_inv time acc m sb iv rows H)
    as [Hlen [Htr [Hs [o [bins [Hf [Hb _]]]]]]].
  rewrite (tmp_frame_windows time acc m sb iv o bins Hlen Htr Hf Hb) in Htmp.
  injection Htmp as <-.
  assert (Hlt : (j < List.length emno)%nat)
    by (apply nth_error_Some; congruence).
  destruct (window_frame_rows time acc m sb bins emno mvpa sbc j He Hm Hsb Hlt)
    as [x' [Hx [Hmv Hsv]]].
  rewrite Hx in Hj. injection Hj as ->.
  destruct (float_nan_leb x m Hnan) as [H1 _].
  destruct (float_nan_leb x sb Hnan) as [_ H2].
  now rewrite Hmv, Hsv, H1, H2.
Qed.

(** X7.  The labels are monotone in their cutpoints.  On the same input, a
    sample that is MVPA under a cutpoint is MVPA under every lower cutpoint,
    and a sample that is SB under a cutpoint is SB under every higher one. *)
Theorem labels_monotone_in_cutpoints :
  forall (time : list Z) (acc : list accel) (m m' sb sb' : float)
         (iv : option string) (rows rows' : list (list cell))
         (i : nat) (a b a' b' : cell),
    (m' <=? m)%float = true -> (sb <=? sb')%float = true ->
    calculate_pa_levels time acc m sb iv = Ok rows ->
    calculate_pa_levels time acc m' sb' iv = Ok rows' ->
    nth_error rows i = Some [a; b] -> nth_error rows' i = Some [a'; b'] ->
    (a = Bl true -> a' = Bl true) /\ (b = Bl true -> b' = Bl true).
Proof.
  intros time acc m m' sb sb' iv rows rows' i a b a' b' Hm Hsb H H' Hr Hr'.
  destruct (returns_inv time acc m sb iv rows H)
    as [_ [_ [Hs [o [bins [Hf [Hb [Hsb1 ->]]]]]]]].
  destruct (returns_inv time acc m' sb' iv rows' H')
    as [_ [_ [_ [o' [bins' [Hf' [Hb' [_ ->]]]]]]]].
  rewrite Hf in Hf'. injection Hf' as <-.
  rewrite Hb in Hb'. injection Hb' as <-.
  destruct (nth_error time i) as [t|] eqn:Ht.
  2:{ apply nth_error_None in Ht.
      assert (Hn : nth_error (window_rows time acc m sb bins) i <> None)
        by congruence.
      apply nth_error_Some in Hn. unfold window_rows in Hn.
      rewrite asof_join_backward_spec in Hn by assumption.
      rewrite !length_map in Hn. lia. }
  rewrite (window_rows_nth _ _ _ _ _ _ _ Hs Hsb1 Ht) in Hr.
  rewrite (window_rows_nth _ _ _ _ _ _ _ Hs Hsb1 Ht) in Hr'.
  unfold row_at in Hr, Hr'.
  destruct (Z.of_nat (count_le (map bin_label bins) t) - 1 <? 0).
  { injection Hr as <- <-. split; discriminate. }
  set (k := Z.to_nat (Z.of_nat (count_le (map bin_label bins) t) - 1)) in *.
  destruct (nth_error bins k) as [bk|] eqn:Hk.
  - rewrite !(nth_error_nth _ _ _ (map_nth_error _ _ _ Hk)) in Hr.
    rewrite !(nth_error_nth _ _ _ (map_nth_error _ _ _ Hk)) in Hr'.
    injection Hr as <- <-. injection Hr' as <- <-.
    split; intros [= Et]; f_equal.
    + exact (float_leb_trans _ _ _ Hm Et).
    + exact (float_leb_trans _ _ _ Et Hsb).
  - apply nth_error_None in Hk.
    rewrite !nth_overflow in Hr by (rewrite length_map; exact Hk).
    injection Hr as <- <-. split; discriminate.
Qed.

(** X8.  Each label has its own cutpoint.  Whether a call returns does not
    depend on the cutpoints, the column MVPA of the result does not depend on
    [sb_cutpoint], and the column SB does not depend on [mvpa_cutpoint]. *)
Theorem labels_independent :
  forall (time : list Z) (acc : list accel) (m sb m' sb' : float)
         (iv : option string) (rows : list (list cell)),
    calculate_pa_levels time acc m sb iv = Ok rows ->
    exists rows1 rows2,
      calculate_pa_levels time acc m sb' iv = Ok rows1
      /\ calculate_pa_levels time acc m' sb iv = Ok rows2
      /\ map (fun row => nth 0 row NA) rows1 = map (fun row => nth 0 row NA) rows
      /\ map (fun row => nth 1 row NA) rows2 = map (fun row => nth 1 row NA) rows.
Proof.
  intros time acc m sb m' sb' iv rows H.
  destruct (returns_inv time acc m sb iv rows H)
    as [Hlen [Htr [Hs [o [bins [Hf [Hb [Hsb ->]]]]]]]].
  assert (R : forall m0 sb0,
             calculate_pa_levels time acc m0 sb0 iv
             = Ok (window_rows time acc m0 sb0 bins)).
  { intros m0 sb0. rewrite calculate_pa_levels_eq.
    now rewrite (proj2 (Nat.eqb_eq _ _) Hlen), Htr, Hf, Hb, Hs, Hsb. }
  exists (window_rows time acc m sb' bins), (window_rows time acc m' sb bins).
  split; [apply R|]. split; [apply R|].
  unfold window_rows. rewrite !map_map. split; reflexivity.
Qed.

(** With a width that divides the day, the start of an epoch is the time
    stamp rounded down to a multiple of the width. *)
Lemma epoch_start_aligned (time : list Z) (freq t : Z) :
  0 < freq -> nanos_per_day mod freq = 0 ->
  epoch_start time freq t = t - t mod freq.
Proof.
  intros H Hd. unfold epoch_start.
  apply Z.mod_divide in Hd; [|lia]. destruct Hd as [q Hq].
  pose proof (Z.div_mod (earliest time) nanos_per_day ltac:(easy)) as Hdm.
  replace (earliest time - earliest time mod nanos_per_day)
    with (earliest time / nanos_per_day * q * freq) by (rewrite Hq in Hdm at 1; nia).
  replace (t - earliest time / nanos_per_day * q * freq)
    with (t + (- (earliest time / nanos_per_day * q)) * freq) by lia.
  now rewrite Z.mod_add by lia.
Qed.

(** X9.  The windows are laid out on the clock, not from the first sample:
    for an interval whose width divides the day (such as "1s"), every time
    stamp in the column [Time] of [tmp] is a multiple of the width, and the
    row of a sample is that of its time stamp rounded down to a multiple of
    the width. *)
Theorem windows_on_the_clock :
  forall (time : list Z) (acc : list accel) (m sb : float)
         (iv : option string) (rows : list (list cell)) (f : Z),
    calculate_pa_levels time acc m sb iv = Ok rows ->
    interval_freq iv = Ok (Tick f) ->
    nanos_per_day mod f = 0 ->
    lookup "Time" (epoch_frame time acc m sb f)
    = Some (Own (map Tm (bin_edges time f)))
    /\ tmp_frame (snd (run_pa_levels time acc m sb iv))
       = Some (epoch_frame time acc m sb f)
    /\ Forall (fun lo => lo mod f = 0) (bin_edges time f)
    /\ forall (i : nat) (t : Z),
         nth_error time i = Some t ->
         nth_error rows i
         = Some [Bl (m <=? epoch_mean time acc f (t - t mod f))%float;
                 Bl (epoch_mean time acc f (t - t mod f) <=? sb)%float].
Proof.
  intros time acc m sb iv rows f H Hf Hd.
  destruct (returns_tick_inv time acc m sb iv rows f H Hf)
    as [_ [_ [_ [Hpos [-> Htmp]]]]].
  split; [reflexivity|]. split; [exact Htmp|]. split.
  - apply Forall_forall. intros lo Hin.
    pose proof (bin_edges_starts time f lo Hpos Hin) as E.
    rewrite epoch_start_aligned in E by assumption. lia.
  - intros i t Hi. rewrite (map_nth_error _ _ _ Hi). unfold sample_levels.
    now rewrite epoch_start_aligned by assumption.
Qed.

Lemma is_sorted_shift (d : Z) (l : list Z) :
  is_sorted (map (fun t => t + d) l) = is_sorted l.
Proof.
  induction l as [|a l IH]; [reflexivity|].
  destruct l as [|b l]; [reflexivity|].
  cbn [map] in *. rewrite !is_sorted_cons2, IH. f_equal.
  apply eq_true_iff_eq. rewrite !Z.leb_le. lia.
Qed.

Lemma select_bin_shift {A : Type} (d lo hi : Z) (time : list Z) (vals : list A) :
  select_bin (map (fun t => t + d) time) vals (lo + d) (hi + d)
  = select_bin time vals lo hi.
Proof.
  revert vals. induction time as [|t time IH]; intros vals; [reflexivity|].
  destruct vals as [|v vals]; [reflexivity|]. cbn [map select_bin].
  replace (lo + d <=? t + d) with (lo <=? t)
    by (apply eq_true_iff_eq; rewrite !Z.leb_le; lia).
  replace (t + d <? hi + d) with (t <? hi)
    by (apply eq_true_iff_eq; rewrite !Z.ltb_lt; lia).
  now rewrite IH.
Qed.

(** X10.  Only the position of the samples on the grid of epochs matters:
    for an interval whose width divides the day, moving every time stamp by
    the same whole number of epochs changes nothing in the outcome, rows or
    exception, as long as the series stays inside the range of time stamps
    before and after the move. *)
Theorem shift_by_whole_epochs :
  forall (time : list Z) (acc : list accel) (m sb : float)
         (iv : option string) (f d : Z),
    interval_freq iv = Ok (Tick f) -> 0 < f ->
    nanos_per_day mod f = 0 -> d mod f = 0 ->
    within_range time f ->
    within_range (map (fun t => t + d) time) f ->
    calculate_pa_levels (map (fun t => t + d) time) acc m sb iv
    = calculate_pa_levels time acc m sb iv.
Proof.
  intros time acc m sb iv f d Hf Hpos Hday Hd Hr Hr'.
  rewrite !calculate_pa_levels_eq, length_map, is_sorted_shift, Hf.
  destruct (negb (Nat.eqb (List.length time) (List.length acc))); [reflexivity|].
  destruct (negb (truthy iv)); [reflexivity|]. cbn [offset_bins].
  rewrite (tick_bins_within _ f Hpos Hr), (tick_bins_within _ f Hpos Hr').
  rewrite !tick_windows_labels, !(bin_edges_sorted _ f Hpos).
  destruct (is_sorted time) eqn:Hs; [|reflexivity]. cbn [andb].
  rewrite !window_rows_tick by (try rewrite is_sorted_shift; assumption).
  f_equal. rewrite map_map. apply map_ext. intros t.
  unfold sample_levels, epoch_mean. rewrite !epoch_start_aligned by assumption.
  rewrite !bin_mean_sorted by (try rewrite is_sorted_shift; assumption).
  apply Z.mod_divide in Hd; [|lia]. destruct Hd as [q ->].
  rewrite Z.mod_add by lia.
  replace (t + q * f - t mod f) with (t - t mod f + q * f) by lia.
  replace (t - t mod f + q * f + f) with (t - t mod f + f + q * f) by lia.
  now rewrite select_bin_shift.
Qed.

(** X11.  What the scan of [merge_asof] finds.  On sorted keys, the position
    stored for a left key [t] is -1 exactly when every right key is after
    [t]; otherwise it is the position of a right key that is not after [t]
    while every right key behind that position is after [t]. *)
Theorem asof_positions :
  forall (lv rv : list Z) (i : nat) (t j : Z),
    is_sorted lv = true -> is_sorted rv = true ->
    nth_error lv i = Some t ->
    nth_error (asof_join_backward lv rv) i = Some j ->
    (j = -1 /\ Forall (fun r => t < r) rv)
    \/ (0 <= j
        /\ (exists r, nth_error rv (Z.to_nat j) = Some r /\ r <= t)
        /\ Forall (fun r => t < r) (skipn (S (Z.to_nat j)) rv)).
Proof.
  intros lv rv i t j Hl Hr Hi Hj.
  rewrite asof_join_backward_spec in Hj by assumption.
  rewrite (map_nth_error _ _ _ Hi) in Hj. injection Hj as <-.
  destruct (count_le_cases rv t Hr) as [[Hc Hall]|[k [r [Hc [Hn [Hle Hall]]]]]];
    rewrite Hc.
  - left. now split.
  - right. split; [lia|].
    replace (Z.to_nat (Z.of_nat (S k) - 1)) with k by lia.
    split; [now exists r|exact Hall].
Qed.

End Pandas.

(** * Examples

    The theorems above at concrete inputs.  The frequency strings used here
    are "1s" and "W", so the reading of the other strings plays no part. *)


Lemma gap_times_within : within_range gap_times second.
Proof.
  unfold within_range, gap_times, ts_min, ts_max, nanos_per_day, second.
  split; [lia|]. repeat constructor; lia.
Qed.







Lemma rows_are_asof_labels_witness :
  exists bins,
    tmp_frame (snd (run_pa_levels no_other three_times three_samples
                      mvpa_cutpoint_default sb_cutpoint_default interval_default))
    = Some (window_frame three_times three_samples
              mvpa_cutpoint_default sb_cutpoint_default bins).
Proof.
  destruct (proj1 (rows_are_asof_labels no_other) three_times three_samples
              mvpa_cutpoint_default sb_cutpoint_default interval_default
              [[Bl true; Bl false]; [Bl true; Bl false]; [Bl true; Bl false]])
    as [bins [H _]]; [reflexivity|vm_compute; reflexivity|].
  exists bins. exact H.
Defined.

Lemma cutpoints_inclusive_witness :
  nth_error [Bl true] 0 = Some (Bl true) /\ nth_error [Bl true] 0 = Some (Bl true).
Proof.
  pose proof (cutpoints_inclusive no_other [0] half_sample 0.5%float 0.5%float
                interval_default [[Bl true; Bl true]]
                (epoch_frame [0] half_sample 0.5%float 0.5%float second)
                [Flt 0.5] [Bl true] [Bl true] O 0.5%float) as H.
  destruct H as [H1 H2]; try (vm_compute; reflexivity).
  split; [apply H1|apply H2]; vm_compute; reflexivity.
Defined.

Lemma labels_exclusive_witness :
  (sb_cutpoint_default <? mvpa_cutpoint_default)%float = true
  /\ Forall (fun row => row <> [Bl true; Bl true])
            [[Bl true; Bl false]; [Bl true; Bl false]; [Bl true; Bl false]].
Proof.
  split; [vm_compute; reflexivity|].
  apply (proj1 (labels_exclusive no_other) three_times three_samples
           mvpa_cutpoint_default sb_cutpoint_default interval_default);
    vm_compute; reflexivity.
Defined.

Lemma three_samples_mvpa_witness :
  calculate_pa_levels no_other three_times three_samples
    mvpa_cutpoint_default sb_cutpoint_default interval_default
  = Ok [[Bl true; Bl false]; [Bl true; Bl false]; [Bl true; Bl false]].
Proof.
  apply (three_samples_mvpa no_other
           (1.1, 0, 0)%float (0, 1.1, 0)%float (0, 0, 1.1)%float);
    vm_compute; reflexivity.
Defined.



Lemma length_mismatch_raises_witness :
  calculate_pa_levels no_other [0; second] three_samples
    mvpa_cutpoint_default sb_cutpoint_default None = Raise ValueError.
Proof.
  apply (length_mismatch_raises no_other [0; second] three_samples
           mvpa_cutpoint_default sb_cutpoint_default None).
  discriminate.
Defined.


Lemma no_interval_exception_witness :
  calculate_pa_levels no_other three_times three_samples
    mvpa_cutpoint_default sb_cutpoint_default None = Raise KeyError
  /\ calculate_pa_levels no_other [2 * second; second; 0] three_samples
       mvpa_cutpoint_default sb_cutpoint_default (Some "") = Raise ValueError.
Proof.
  split.
  - apply (no_interval_exception no_other three_times three_samples
             mvpa_cutpoint_default sb_cutpoint_default None); reflexivity.
  - apply (no_interval_exception no_other [2 * second; second; 0] three_samples
             mvpa_cutpoint_default sb_cutpoint_default (Some "")); reflexivity.
Defined.


Lemma depends_on_enmo_only_witness :
  calculate_pa_levels no_other three_times three_samples
    mvpa_cutpoint_default sb_cutpoint_default interval_default
  = calculate_pa_levels no_other three_times
      [(1.1, 0, 0); (1.1, 0, 0); (1.1, 0, 0)]%float
      mvpa_cutpoint_default sb_cutpoint_default interval_default.
Proof.
  apply (depends_on_enmo_only no_other three_times three_samples
           [(1.1, 0, 0); (1.1, 0, 0); (1.1, 0, 0)]%float).
  vm_compute. reflexivity.
Defined.

Lemma nan_window_unlabelled_witness :
  nth_error [Bl true; Bl false; Bl true] 1 = Some (Bl false)
  /\ nth_error [Bl false; Bl false; Bl false] 1 = Some (Bl false).
Proof.
  apply (nan_window_unlabelled no_other gap_times gap_samples
           mvpa_cutpoint_default sb_cutpoint_default interval_default
           [[Bl true; Bl false]; [Bl true; Bl false]]
           (epoch_frame gap_times gap_samples
              mvpa_cutpoint_default sb_cutpoint_default second)
           [Flt 0.10000000000000009; Flt nan; Flt 0.10000000000000009]
           [Bl true; Bl false; Bl true] [Bl false; Bl false; Bl false]
           1%nat nan);
    vm_compute; reflexivity.
Defined.

Lemma labels_monotone_in_cutpoints_witness :
  (Bl true = Bl true -> Bl true = Bl true)
  /\ (Bl false = Bl true -> Bl true = Bl true).
Proof.
  apply (labels_monotone_in_cutpoints no_other three_times three_samples
           0.069%float 0.05%float 0.015%float 0.2%float interval_default
           [[Bl true; Bl false]; [Bl true; Bl false]; [Bl true; Bl false]]
           [[Bl true; Bl true]; [Bl true; Bl true]; [Bl true; Bl true]]
           0%nat);
    vm_compute; reflexivity.
Defined.

Lemma labels_independent_witness :
  exists rows1 rows2,
    calculate_pa_levels no_other three_times three_samples
      mvpa_cutpoint_default 0.2%float interval_default = Ok rows1
    /\ calculate_pa_levels no_other three_times three_samples
         0.2%float sb_cutpoint_default interval_default = Ok rows2
    /\ map (fun row => nth 0 row NA) rows1
       = map (fun row => nth 0 row NA)
             [[Bl true; Bl false]; [Bl true; Bl false]; [Bl true; Bl false]]
    /\ map (fun row => nth 1 row NA) rows2
       = map (fun row => nth 1 row NA)
             [[Bl true; Bl false]; [Bl true; Bl false]; [Bl true; Bl false]].
Proof.
  apply (labels_independent no_other three_times three_samples
           mvpa_cutpoint_default sb_cutpoint_default 0.2%float 0.2%float
           interval_default).
  vm_compute. reflexivity.
Defined.

Lemma windows_on_the_clock_witness :
  lookup "Time" (epoch_frame offbeat_times gap_samples
                   mvpa_cutpoint_default sb_cutpoint_default second)
  = Some (Own (map Tm (bin_edges offbeat_times second)))
  /\ tmp_frame (snd (run_pa_levels no_other offbeat_times gap_samples
                       mvpa_cutpoint_default sb_cutpoint_default interval_default))
     = Some (epoch_frame offbeat_times gap_samples
               mvpa_cutpoint_default sb_cutpoint_default second)
  /\ Forall (fun lo => lo mod second = 0)
            (bin_edges offbeat_times second)
  /\ forall (i : nat) (t : Z),
       nth_error offbeat_times i = Some t ->
       nth_error [[Bl true; Bl false]; [Bl true; Bl false]] i
       = Some [Bl (mvpa_cutpoint_default
                   <=? epoch_mean offbeat_times gap_samples second
                         (t - t mod second))%float;
               Bl (epoch_mean offbeat_times gap_samples second
                     (t - t mod second)
                   <=? sb_cutpoint_default)%float].
Proof.
  apply (windows_on_the_clock no_other offbeat_times gap_samples
           mvpa_cutpoint_default sb_cutpoint_default interval_default
           [[Bl true; Bl false]; [Bl true; Bl false]] second);
    vm_compute; reflexivity.
Defined.

Lemma shift_by_whole_epochs_witness :
  calculate_pa_levels no_other (map (fun t => t + 3 * second) gap_times)
    gap_samples mvpa_cutpoint_default sb_cutpoint_default interval_default
  = calculate_pa_levels no_other gap_times gap_samples
      mvpa_cutpoint_default sb_cutpoint_default interval_default.
Proof.
  apply (shift_by_whole_epochs no_other gap_times gap_samples
           mvpa_cutpoint_default sb_cutpoint_default interval_default
           second (3 * second));
    try reflexivity.
  - exact gap_times_within.
  - unfold within_range, gap_times, ts_min, ts_max, nanos_per_day, second.
    cbn [map]. split; [lia|]. repeat constructor; lia.
Defined.

Lemma asof_positions_witness :
  (1 = -1 /\ Forall (fun r => 25 < r) [10; 20; 30])
  \/ (0 <= 1
      /\ (exists r, nth_error [10; 20; 30] (Z.to_nat 1) = Some r /\ r <= 25)
      /\ Forall (fun r => 25 < r) (skipn (S (Z.to_nat 1)) [10; 20; 30])).
Proof.
  apply (asof_positions [5; 25] [10; 20; 30] 1 25 1); reflexivity.
Defined.
